(** * bt-customer-svc: authentication core and customer handlers

    A shallow embedding of the Go sources

      - [handlers/auth/auth.go]      (token codec and authentication gate),
      - [customer_server.go]         (customer and login handlers),
      - [handlers/customer/customer_types.go] (response conversions),

    together with the library behaviour they rely on ([strconv],
    [net/http]'s response writer and header map, the JWT library's
    parser, [crypto/hmac]'s keying, [unicode/utf8]'s rune count),
    followed by the theorems that settle the specification's claims
    about them. *)

From Stdlib Require Import ZArith Lia Bool Ascii String List.
From Stdlib.Strings Require Import Byte.
From stdpp Require Import base option countable gmap strings list.

Local Open Scope string_scope.
Local Open Scope Z_scope.

(* ===================================================================== *)
(** ** strconv: decimal formatting and parsing of Go's [int]             *)
(* ===================================================================== *)

Module Strconv.

(** Go's [int] on the 64-bit targets the service is built for. *)
Definition MinInt : Z := - 2 ^ 63.
Definition MaxInt : Z := 2 ^ 63 - 1.
Definition is_int (n : Z) : Prop := MinInt <= n <= MaxInt.

(** [*strconv.NumError].  On [ErrRange] the parsing functions still
    return a number, the bound of the type nearest to the text's value
    ([clamped]); on [ErrSyntax] they return 0. *)
Inductive NumError := ErrSyntax | ErrRange (clamped : Z).

(** [byte('0' + d)] *)
Definition digit_char (d : Z) : ascii := ascii_of_N (48 + Z.to_N d).

(** [ch -= '0'; if ch > 9 { syntax error }] *)
Definition digit_of (c : ascii) : option Z :=
  let n := Z.of_N (N_of_ascii c) in
  if (48 <=? n) && (n <=? 57) then Some (n - 48) else None.

(** The loop of [formatBits] for base 10: digits are produced from the
    least significant one and written right to left into the buffer
    [acc].  [fuel] bounds the number of digits (a uint64 has at most 20). *)
Fixpoint formatBits (fuel : nat) (u : Z) (acc : string) : string :=
  match fuel with
  | O => acc
  | S fuel' =>
      if u <? 10 then String (digit_char u) acc
      else formatBits fuel' (u / 10) (String (digit_char (u mod 10)) acc)
  end.

(** [strconv.FormatInt(i, 10)]: a negative number is printed as ["-"]
    followed by the digits of its magnitude. *)
Definition FormatInt (i : Z) : string :=
  if i <? 0 then String "-" (formatBits 20 (- i) "")
  else formatBits 20 i "".

(** [strconv.Itoa(i) = FormatInt(int64(i), 10)] *)
Definition Itoa (i : Z) : string := FormatInt i.

(** The digit loop shared by [Atoi]'s fast path and [ParseUint]:
    [n = n*10 + int(ch)], failing on the first non-digit. *)
Fixpoint parse_digits (s : string) (n : Z) : option Z :=
  match s with
  | EmptyString => Some n
  | String ch s' =>
      match digit_of ch with
      | Some d => parse_digits s' (n * 10 + d)
      | None => None
      end
  end.

(** [strconv.Atoi(s)]: optional sign, at least one digit, only digits,
    and the value must fit Go's [int]; a value that does not fit is
    reported as a range error together with [MinInt] or [MaxInt]
    ([ParseInt]'s [-int64(cutoff)] and [int64(cutoff - 1)]). *)
Definition Atoi (s : string) : NumError + Z :=
  match s with
  | EmptyString => inl ErrSyntax
  | String c rest =>
      let neg := Ascii.eqb c "-" in
      let body := if neg || Ascii.eqb c "+" then rest else s in
      match body with
      | EmptyString => inl ErrSyntax
      | _ =>
          match parse_digits body 0 with
          | None => inl ErrSyntax
          | Some un =>
              if neg then
                if un >? 2 ^ 63 then inl (ErrRange MinInt) else inr (- un)
              else
                if un >=? 2 ^ 63 then inl (ErrRange MaxInt) else inr un
          end
      end
  end.

End Strconv.

(* ===================================================================== *)
(** ** The JWT library as the service uses it                            *)
(* ===================================================================== *)

(** Byte slices ([[]byte]) are lists of bytes. *)
#[global] Instance byte_eq_dec : EqDecision byte := Byte.byte_eq_dec.

#[global] Instance byte_countable : Countable byte :=
  inj_countable Byte.to_N Byte.of_N Byte.of_to_N.

Module Jwt.

(** Instants ([time.Time]) and durations are counted in nanoseconds. *)
Definition Second : Z := 1000000000.

(** [jwt.NewNumericDate(t)]: the instant truncated to [TimePrecision],
    one second. *)
Definition NewNumericDate (t : Z) : Z := t - t mod Second.

(** [jwt.RegisteredClaims], restricted to the two fields the service
    sets.  [ExpiresAt] is a pointer: [None] is [nil]. *)
Record RegisteredClaims := {
  Subject : string;
  ExpiresAt : option Z
}.

(** A claim as found in a decoded claim set: missing, a JSON string, or
    a JSON value of another type. *)
Inductive ClaimValue :=
| ClaimAbsent
| ClaimString (s : string)
| ClaimOther.

(** [jwt.MapClaims], the claim set [jwt.Parse] decodes into, restricted
    to the identity claim's two entries. *)
Record MapClaims := {
  sub : ClaimValue;
  exp : option Z
}.

(** The JOSE header's [alg] entry; [None] when it is missing or not a
    string. *)
Definition JoseHeader := option string.

(** Both fields of [RegisteredClaims] are tagged [omitempty]: an empty
    subject and a nil expiry are left out of the encoded claim set. *)
Definition claimSet (c : RegisteredClaims) : MapClaims :=
  {| sub := if decide (Subject c = "") then ClaimAbsent
            else ClaimString (Subject c);
     exp := ExpiresAt c |}.

Inductive HashAlg := SHA256 | SHA384 | SHA512.

(** The registered signing methods. *)
Inductive SigningMethod :=
| SigningMethodHMAC (name : string) (h : HashAlg)
| SigningMethodPublicKey (name : string)
| SigningMethodNone.

Definition SigningMethodHS256 : SigningMethod := SigningMethodHMAC "HS256" SHA256.

Definition Alg (m : SigningMethod) : string :=
  match m with
  | SigningMethodHMAC name _ => name
  | SigningMethodPublicKey name => name
  | SigningMethodNone => "none"
  end.

Definition signingMethods : list SigningMethod :=
  [ SigningMethodHS256;
    SigningMethodHMAC "HS384" SHA384;
    SigningMethodHMAC "HS512" SHA512;
    SigningMethodPublicKey "RS256"; SigningMethodPublicKey "RS384";
    SigningMethodPublicKey "RS512";
    SigningMethodPublicKey "PS256"; SigningMethodPublicKey "PS384";
    SigningMethodPublicKey "PS512";
    SigningMethodPublicKey "ES256"; SigningMethodPublicKey "ES384";
    SigningMethodPublicKey "ES512";
    SigningMethodPublicKey "EdDSA";
    SigningMethodNone ].

(** [jwt.GetSigningMethod(alg)] *)
Definition GetSigningMethod (alg : string) : option SigningMethod :=
  List.find (fun m => String.eqb (Alg m) alg) signingMethods.

Inductive Error :=
| ErrTokenMalformed
| ErrTokenUnverifiable
| ErrTokenSignatureInvalid
| ErrTokenExpired           (* joined with [ErrTokenInvalidClaims] *)
| ErrInvalidKeyType
| ErrInvalidType
| NoneSignatureTypeDisallowedError.

(** [[]byte(s)] *)
Definition bytes_of_string (s : string) : list byte :=
  List.map byte_of_ascii (list_ascii_of_string s).

(** [a ^ b] on bytes. *)
Definition xor (a b : byte) : byte :=
  default x00 (Byte.of_N (N.lxor (Byte.to_N a) (Byte.to_N b))).

(** [h.BlockSize()] of the three SHA-2 functions, in bytes. *)
Definition BlockSize (h : HashAlg) : nat :=
  match h with
  | SHA256 => 64
  | SHA384 | SHA512 => 128
  end.

(** [copy(make([]byte, blocksize), key)]: the key at the front of a
    zeroed block. *)
Definition block (blocksize : nat) (key : list byte) : list byte :=
  take blocksize (key ++ replicate blocksize x00)%list.

(** The part of the library that is text and cryptography: the compact
    serialization (base64url over JSON, three segments joined by dots)
    and the hash functions.  They are parameters of the development. *)
Class Wire := {
  (** [token.SigningString()]: the first two segments. *)
  SigningString : JoseHeader -> MapClaims -> string;
  (** The signing string, a dot, and the encoded signature. *)
  Compact : string -> list byte -> string;
  (** Splitting a token string into three segments and decoding them;
      the signing string is returned as found in the text. *)
  Segments : string -> option (JoseHeader * MapClaims * string * list byte);
  (** [h.New()], [Write(data)], [Sum(nil)]: the digest of [data]. *)
  hash : HashAlg -> list byte -> list byte
}.

(** Decoding inverts encoding. *)
Class WireLaws `{Wire} : Prop := {
  Segments_Compact (h : JoseHeader) (c : MapClaims) (sig : list byte) :
    Segments (Compact (SigningString h c) sig)
    = Some (h, c, SigningString h c, sig)
}.

(** [*jwt.Token] *)
Record Token := {
  Raw : string;
  Method : SigningMethod;
  Header : JoseHeader;
  Claims : MapClaims;
  Signature : list byte;
  Valid : bool
}.

Section Library.
Context `{Wire}.

(** [hmac.New(h.New, key)], [Write([]byte(signingString))], [Sum(nil)]
    as in [crypto/hmac]: a key longer than the block is hashed first,
    the key is copied into a zeroed block, and the tag is the outer
    digest of the block xor [0x5c] followed by the inner digest of the
    block xor [0x36] followed by the message. *)
Definition hmac (h : HashAlg) (key : list byte) (signingString : string)
  : list byte :=
  let blocksize := BlockSize h in
  let key := if (blocksize <? length key)%nat then hash h key else key in
  let ipad := List.map (xor x36) (block blocksize key) in
  let opad := List.map (xor x5c) (block blocksize key) in
  hash h (opad ++ hash h (ipad ++ bytes_of_string signingString))%list.

(** [method.Sign(signingString, key)] for a [[]byte] key. *)
Definition Sign (m : SigningMethod) (signingString : string)
           (key : list byte) : Error + list byte :=
  match m with
  | SigningMethodHMAC _ h => inr (hmac h key signingString)
  | SigningMethodPublicKey _ => inl ErrInvalidKeyType
  | SigningMethodNone => inl NoneSignatureTypeDisallowedError
  end.

(** [method.Verify(signingString, sig, key)] for a [[]byte] key. *)
Definition Verify (m : SigningMethod) (signingString : string)
           (sig key : list byte) : option Error :=
  match m with
  | SigningMethodHMAC _ h =>
      if decide (sig = hmac h key signingString) then None
      else Some ErrTokenSignatureInvalid
  | SigningMethodPublicKey _ => Some ErrInvalidKeyType
  | SigningMethodNone => Some NoneSignatureTypeDisallowedError
  end.

(** [jwt.NewWithClaims(method, claims).SignedString(key)] *)
Definition SignedString (m : SigningMethod) (claims : RegisteredClaims)
           (key : list byte) : Error + string :=
  let sstr := SigningString (Some (Alg m)) (claimSet claims) in
  match Sign m sstr key with
  | inl err => inl err
  | inr sig => inr (Compact sstr sig)
  end.

(** [Parser.ParseUnverified]: decode the segments and look up the
    signing method named by the header. *)
Definition ParseUnverified (tokenString : string)
  : Error + (Token * string) :=
  match Segments tokenString with
  | None => inl ErrTokenMalformed
  | Some (header, claims, sstr, sig) =>
      match header with
      | None => inl ErrTokenUnverifiable
      | Some alg =>
          match GetSigningMethod alg with
          | None => inl ErrTokenUnverifiable
          | Some method =>
              inr ({| Raw := tokenString; Method := method;
                      Header := header; Claims := claims;
                      Signature := sig; Valid := false |}, sstr)
          end
      end
  end.

(** The default validator: an expiry, when present, must lie strictly
    after the instant of validation ([now.Before(exp)]). *)
Definition Validate (now : Z) (claims : MapClaims) : option Error :=
  match exp claims with
  | None => None
  | Some e => if now <? e then None else Some ErrTokenExpired
  end.

(** [jwt.Parse(tokenString, keyFunc, jwt.WithValidMethods(validMethods))]
    where [keyFunc] returns [key] for every token; [now] is the
    instant [time.Now()] yields during validation. *)
Definition Parse (now : Z) (tokenString : string) (key : list byte)
           (validMethods : list string) : Error + Token :=
  match ParseUnverified tokenString with
  | inl err => inl err
  | inr (token, sstr) =>
      if negb (existsb (String.eqb (Alg (Method token))) validMethods)
      then inl ErrTokenSignatureInvalid
      else
        match Verify (Method token) sstr (Signature token) key with
        | Some err => inl ErrTokenSignatureInvalid
        | None =>
            match Validate now (Claims token) with
            | Some err => inl err
            | None =>
                inr {| Raw := Raw token; Method := Method token;
                       Header := Header token; Claims := Claims token;
                       Signature := Signature token; Valid := true |}
            end
        end
  end.

(** [MapClaims.GetSubject()] *)
Definition GetSubject (claims : MapClaims) : string * option Error :=
  match sub claims with
  | ClaimAbsent => ("", None)
  | ClaimString s => (s, None)
  | ClaimOther => ("", Some ErrInvalidType)
  end.

End Library.

End Jwt.

(* ===================================================================== *)
(** ** net/http: header maps, requests and the response writer           *)
(* ===================================================================== *)

Module Http.

Definition StatusOK : Z := 200.
Definition StatusAccepted : Z := 202.
Definition StatusBadRequest : Z := 400.
Definition StatusUnauthorized : Z := 401.
Definition StatusNotFound : Z := 404.

(** [http.Header] is [map[string][]string]; a key that is absent reads
    as the nil slice. *)
Abbreviation Header := (gmap string (list string)).

(** [h.Add(key, value)] appends to the values already stored under
    [key].  (The keys the service uses, ["Token"] and ["Subject"], are
    already in canonical form.) *)
Definition Add (key value : string) (h : Header) : Header :=
  <[key := (default [] (h !! key) ++ [value])%list]> h.

(** A request, with its body already read as a JSON object of string
    members; [None] stands for a body that is missing or is not one. *)
Record Request := {
  Method : string;
  Headers : Header;
  Body : option (gmap string string)
}.

Definition withHeaders (r : Request) (h : Header) : Request :=
  {| Method := Method r; Headers := h; Body := Body r |}.

(** The state behind an [http.ResponseWriter].  [header] is the map
    [w.Header()] hands out; the first [WriteHeader] commits the status
    line together with a snapshot of that map, [sentHeader], and changes
    made to the map afterwards are not part of the response (the
    interface's contract: changing the header map after a call to
    [WriteHeader] has no effect; a recorder likewise takes its result's
    headers from the snapshot).  [V] is the type of the values encoded
    into the body. *)
Record ResponseWriter (V : Type) := {
  header : Header;
  wroteHeader : bool;
  status : Z;
  sentHeader : Header;
  body : list V
}.
Arguments header {V} _.
Arguments wroteHeader {V} _.
Arguments status {V} _.
Arguments sentHeader {V} _.
Arguments body {V} _.

(** [httptest.NewRecorder()], or the writer the server hands to a
    handler. *)
Definition NewRecorder {V} : ResponseWriter V :=
  {| header := ∅; wroteHeader := false; status := StatusOK;
     sentHeader := ∅; body := [] |}.

(** [w.WriteHeader(code)]; a second call is ignored. *)
Definition WriteHeader {V} (code : Z) (w : ResponseWriter V) : ResponseWriter V :=
  if wroteHeader w then w
  else {| header := header w; wroteHeader := true; status := code;
          sentHeader := header w; body := body w |}.

(** [w.Header().Add(key, value)] *)
Definition HeaderAdd {V} (key value : string) (w : ResponseWriter V) : ResponseWriter V :=
  {| header := Add key value (header w); wroteHeader := wroteHeader w;
     status := status w; sentHeader := sentHeader w; body := body w |}.

(** [json.NewEncoder(w).Encode(v)]: one [w.Write], which first commits
    status 200 if no status was committed yet. *)
Definition Encode {V} (v : V) (w : ResponseWriter V) : ResponseWriter V :=
  let w' := WriteHeader StatusOK w in
  {| header := header w'; wroteHeader := true; status := status w';
     sentHeader := sentHeader w'; body := (body w' ++ [v])%list |}.

(** What the server does when the handler returns without having
    written anything. *)
Definition finish {V} (w : ResponseWriter V) : ResponseWriter V :=
  WriteHeader StatusOK w.

(** How a call ends: it returns, or it panics with the state reached. *)
Inductive Outcome (A : Type) :=
| Returned (a : A)
| Panicked (reason : string) (a : A).
Arguments Returned {A} _.
Arguments Panicked {A} _ _.

Definition state_of {A} (o : Outcome A) : A :=
  match o with Returned a => a | Panicked _ a => a end.

(** A handler [func(w http.ResponseWriter, r *http.Request)] running
    against some state [St] of the rest of the program. *)
Definition HandlerFunc (V St : Type) : Type :=
  ResponseWriter V -> Request -> St -> Outcome (ResponseWriter V * St).

End Http.

(* ===================================================================== *)
(** ** handlers: the error values shared by the handlers                 *)
(* ===================================================================== *)

Module Handlers.

(** The sentinel errors of the service.  Their declarations carry only
    a text each; here every error stands for its own text. *)
Inductive Error :=
| ErrMissingToken
| ErrMissingSubject
| ErrNonIntegerSubject
| ErrMissingCustomer
| ErrMissingAddress
| ErrExistingUser
| ErrInvalidCredentials
| ErrUnathorizedAction.

(** A failed validation names the offending field and rule; a body that
    cannot be decoded is reported as such. *)
Inductive ValidationError :=
| ErrInvalidRequestBody
| ErrInvalidRequestField (field rule : string).

(** [err.Error()] for the errors a handler reports. *)
Inductive ErrorText :=
| HandlersText (e : Error)
| JwtText (e : Jwt.Error)
| ValidationText (e : ValidationError).

Record ErrorResponse := { Message : ErrorText }.

(** What [json.NewEncoder(w).Encode] is given: an [ErrorResponse], or a
    payload of the endpoint's own type [R]. *)
Inductive Document (R : Type) :=
| ErrorDocument (e : ErrorResponse)
| ValueDocument (r : R).
Arguments ErrorDocument {R} _.
Arguments ValueDocument {R} _.

End Handlers.

(* ===================================================================== *)
(** ** handlers/auth/auth.go                                             *)
(* ===================================================================== *)

Module Auth.
Import Http Handlers.

Section Auth.
Context `{Jwt.Wire}.

(** [GenerateJWT(secretKey, expiresAt, subject)], called at the
    instant [now]; [expiresAt] is a duration. *)
Definition GenerateJWT (now : Z) (secretKey : list byte) (expiresAt : Z)
           (subject : Z) : Jwt.Error + string :=
  match Jwt.SignedString Jwt.SigningMethodHS256
          {| Jwt.Subject := Strconv.FormatInt subject;
             Jwt.ExpiresAt := Some (Jwt.NewNumericDate (now + expiresAt)) |}
          secretKey with
  | inl err => inl err
  | inr tokenString => inr tokenString
  end.

Definition GenerateJWTWithStringSubject (now : Z) (secretKey : list byte)
           (expiresAt : Z) (subject : string) : Jwt.Error + string :=
  match Jwt.SignedString Jwt.SigningMethodHS256
          {| Jwt.Subject := subject;
             Jwt.ExpiresAt := Some (Jwt.NewNumericDate (now + expiresAt)) |}
          secretKey with
  | inl err => inl err
  | inr tokenString => inr tokenString
  end.

Definition GenerateJWTWithoutSubject (now : Z) (secretKey : list byte)
           (expiresAt : Z) : Jwt.Error + string :=
  match Jwt.SignedString Jwt.SigningMethodHS256
          {| Jwt.Subject := "";
             Jwt.ExpiresAt := Some (Jwt.NewNumericDate (now + expiresAt)) |}
          secretKey with
  | inl err => inl err
  | inr tokenString => inr tokenString
  end.

(** [VerifyJWT(jwtString, secretKey)], called at the instant [now]. *)
Definition VerifyJWT (now : Z) (jwtString : string) (secretKey : list byte)
  : Jwt.Error + Jwt.Token :=
  match Jwt.Parse now jwtString secretKey [Jwt.Alg Jwt.SigningMethodHS256] with
  | inl err => inl err
  | inr token => inr token
  end.

(** [getIDFromToken(token)] *)
Definition getIDFromToken (token : Jwt.Token) : Handlers.Error + Z :=
  let '(subject, err) := Jwt.GetSubject (Jwt.Claims token) in
  if bool_decide (err <> None) || bool_decide (subject = "")
  then inl ErrMissingSubject
  else
    match Strconv.Atoi subject with
    | inl _ => inl ErrNonIntegerSubject
    | inr id => inr id
    end.

(** The rejection every failing branch of the middleware writes. *)
Definition unauthorized {R} (text : ErrorText) (w : ResponseWriter (Document R))
  : ResponseWriter (Document R) :=
  Encode (ErrorDocument {| Message := text |}) (WriteHeader StatusUnauthorized w).

(** [AuthenticationMiddleware(endpointHandler, secretKey)].  Indexing
    an empty value list panics, as in Go. *)
Definition AuthenticationMiddleware {R St}
           (endpointHandler : HandlerFunc (Document R) St)
           (secretKey : list byte) (now : Z) : HandlerFunc (Document R) St :=
  fun w r st =>
    match Headers r !! "Token" with
    | None => Returned (unauthorized (HandlersText ErrMissingToken) w, st)
    | Some [] => Panicked "index out of range" (w, st)
    | Some (jwtString :: _) =>
        match VerifyJWT now jwtString secretKey with
        | inl err => Returned (unauthorized (JwtText err) w, st)
        | inr token =>
            match getIDFromToken token with
            | inl err => Returned (unauthorized (HandlersText err) w, st)
            | inr id =>
                let r' := withHeaders r (Add "Subject" (Strconv.Itoa id) (Headers r)) in
                endpointHandler w r' st
            end
        end
    end.

End Auth.
End Auth.

(* ===================================================================== *)
(** ** The customer record and its store                                 *)
(* ===================================================================== *)

Module Models.

(** [type Customer struct] of customer_server.go; handlers/customer
    reads the same record as [models.Customer]. *)
Record Customer := {
  Id : Z;
  FirstName : string;
  LastName : string;
  PhoneNumber : string;
  Email : string;
  Password : string
}.

(** Go's [error] results: [None] is [nil]. *)
Definition error := option string.

(** [type CustomerStore interface].  The two lookups return a pointer
    and an error.  The stores the service is given keep to the usual
    contract, a record with a nil error or the nil pointer with an
    error, as the stub store of the test file does; the first is [Some]
    here and the second [None].  The record behind the pointer is read
    as a value: a handler's writes through it are made on its own copy
    and reach the store only by the [UpdateCustomer] call that follows
    them. *)
Class CustomerStore (S : Type) := {
  GetCustomerById : S -> Z -> option Customer;
  GetCustomerByEmail : S -> string -> option Customer;
  StoreCustomer : S -> Customer -> Z * S;
  DeleteCustomer : S -> Z -> error * S;
  UpdateCustomer : S -> Customer -> error * S
}.

(** The calls a handler makes on its store, in order. *)
Inductive StoreCall :=
| CallGetCustomerById (id : Z)
| CallGetCustomerByEmail (email : string)
| CallStoreCustomer (customer : Customer)
| CallDeleteCustomer (id : Z)
| CallUpdateCustomer (customer : Customer).

Definition is_write (c : StoreCall) : bool :=
  match c with
  | CallGetCustomerById _ | CallGetCustomerByEmail _ => false
  | CallStoreCustomer _ | CallDeleteCustomer _ | CallUpdateCustomer _ => true
  end.

(** The store a server holds, together with the record of the calls
    made on it. *)
Record Env (S : Type) := {
  store : S;
  calls : list StoreCall
}.
Arguments store {S} _.
Arguments calls {S} _.

Section Calls.
Context {S : Type} `{CustomerStore S}.

Definition logged (env : Env S) (s : S) (c : StoreCall) : Env S :=
  {| store := s; calls := (calls env ++ [c])%list |}.

Definition getCustomerById (env : Env S) (id : Z) : option Customer * Env S :=
  (GetCustomerById (store env) id,
   logged env (store env) (CallGetCustomerById id)).

Definition getCustomerByEmail (env : Env S) (email : string)
  : option Customer * Env S :=
  (GetCustomerByEmail (store env) email,
   logged env (store env) (CallGetCustomerByEmail email)).

Definition storeCustomer (env : Env S) (customer : Customer) : Z * Env S :=
  let '(id, s) := StoreCustomer (store env) customer in
  (id, logged env s (CallStoreCustomer customer)).

Definition deleteCustomer (env : Env S) (id : Z) : error * Env S :=
  let '(err, s) := DeleteCustomer (store env) id in
  (err, logged env s (CallDeleteCustomer id)).

Definition updateCustomer (env : Env S) (customer : Customer) : error * Env S :=
  let '(err, s) := UpdateCustomer (store env) customer in
  (err, logged env s (CallUpdateCustomer customer)).
End Calls.

End Models.

(* ===================================================================== *)
(** ** unicode/utf8: counting runes                                      *)
(* ===================================================================== *)

Module Utf8.

(** [first[c]] for a byte [c] of [0x80] and above: the length of the
    sequence the byte announces and the range its second byte must lie
    in; [None] ([xx]) for a byte that cannot lead a sequence. *)
Definition first (c : N) : option (nat * N * N) :=
  (if c <? 194 then None                      (* 80..BF, C0, C1 *)
   else if c <=? 223 then Some (2%nat, 128, 191)  (* C2..DF *)
   else if c =? 224 then Some (3%nat, 160, 191)   (* E0 *)
   else if c <=? 236 then Some (3%nat, 128, 191)  (* E1..EC *)
   else if c =? 237 then Some (3%nat, 128, 159)   (* ED *)
   else if c <=? 239 then Some (3%nat, 128, 191)  (* EE, EF *)
   else if c =? 240 then Some (4%nat, 144, 191)   (* F0 *)
   else if c <=? 243 then Some (4%nat, 128, 191)  (* F1..F3 *)
   else if c =? 244 then Some (4%nat, 128, 143)   (* F4 *)
   else None)%N.

(** [c < locb || hicb < c] negated: a continuation byte. *)
Definition continuation (c : N) : bool := ((128 <=? c) && (c <=? 191))%N.

(** How far one turn of the loop of [RuneCountInString] advances from a
    byte [c] followed by [rest]: the length of a well-formed sequence,
    and 1 for an ASCII byte and for anything malformed or cut short. *)
Definition advance (c : N) (rest : list N) : nat :=
  if (c <? 128)%N then 1%nat
  else
    match first c with
    | None => 1%nat
    | Some (size, lo, hi) =>
        if (length rest <? size - 1)%nat then 1%nat
        else
          match rest with
          | c1 :: rest1 =>
              if ((c1 <? lo) || (hi <? c1))%N then 1%nat
              else if (size =? 2)%nat then 2%nat
              else
                match rest1 with
                | c2 :: rest2 =>
                    if negb (continuation c2) then 1%nat
                    else if (size =? 3)%nat then 3%nat
                    else
                      match rest2 with
                      | c3 :: _ => if negb (continuation c3) then 1%nat else 4%nat
                      | [] => 1%nat
                      end
                | [] => 1%nat
                end
          | [] => 1%nat
          end
    end.

(** The loop: [skip] bytes of the current sequence are still to be
    passed over before the next rune starts. *)
Fixpoint count (skip : nat) (bytes : list N) : nat :=
  match bytes with
  | [] => 0%nat
  | c :: rest =>
      match skip with
      | S skip' => count skip' rest
      | O => S (count (advance c rest - 1) rest)
      end
  end.

(** [utf8.RuneCountInString(s)] *)
Definition RuneCountInString (s : string) : nat :=
  count 0 (List.map N_of_ascii (list_ascii_of_string s)).

End Utf8.

(* ===================================================================== *)
(** ** Request validation                                                *)
(* ===================================================================== *)

Module Validation.
Import Handlers.

(** The validator library's e-mail matcher, a parameter. *)
Class Govalidator := { IsEmail : string -> bool }.

(** The rules the [valid:"..."] tags of customer_server.go name. *)
Inductive Rule :=
| stringlength (min max : nat)
| phonenumber
| email.

Definition rule_name (r : Rule) : string :=
  match r with
  | stringlength _ _ => "stringlength"
  | phonenumber => "phonenumber"
  | email => "email"
  end.

Definition is_digit (c : ascii) : bool :=
  let n := N_of_ascii c in ((48 <=? n) && (n <=? 57))%N.

Fixpoint all_chars (p : ascii -> bool) (s : string) : bool :=
  match s with
  | EmptyString => true
  | String c s' => p c && all_chars p s'
  end.

(** The validator [NewCustomerServer] registers under ["phonenumber"]:
    the text matches [^\+[\d ]+$]. *)
Definition matches_phonenumber (str : string) : bool :=
  match str with
  | String c rest =>
      Ascii.eqb c "+"
      && negb (String.eqb rest "")
      && all_chars (fun ch => is_digit ch || Ascii.eqb ch " ") rest
  | EmptyString => false
  end.

Section Rules.
Context `{Govalidator}.

(** [stringlength(min|max)] counts runes, not bytes
    ([utf8.RuneCountInString]). *)
Definition satisfies (r : Rule) (value : string) : bool :=
  match r with
  | stringlength min max =>
      (min <=? Utf8.RuneCountInString value)%nat
      && (Utf8.RuneCountInString value <=? max)%nat
  | phonenumber => matches_phonenumber value
  | email => IsEmail value
  end.

(** One field: [required] first, then the field's own rules. *)
Definition validateField (name : string) (rules : list Rule) (value : string)
  : option ValidationError :=
  if String.eqb value "" then Some (ErrInvalidRequestField name "required")
  else
    match List.find (fun r => negb (satisfies r value)) rules with
    | Some r => Some (ErrInvalidRequestField name (rule_name r))
    | None => None
    end.

(** The first offending field decides the error. *)
Fixpoint validateFields (fields : list (string * list Rule * string))
  : option ValidationError :=
  match fields with
  | [] => None
  | (name, rules, value) :: rest =>
      match validateField name rules value with
      | Some err => Some err
      | None => validateFields rest
      end
  end.

(** A request type: how it is read from a JSON object, and the rules
    its struct tags attach to its fields. *)
Class RequestShape (Req : Type) := {
  decode : gmap string string -> Req;
  tagged : Req -> list (string * list Rule * string)
}.

(** Modelled from the spec: [ValidateRequest(r.Body, &request)], whose
    source is not among the files.  It decodes the body into the
    request value and checks the declarative field rules, returning
    the first descriptive error. *)
Definition ValidateRequest {Req} `{RequestShape Req}
           (body : option (gmap string string)) : ValidationError + Req :=
  match body with
  | None => inl ErrInvalidRequestBody
  | Some object =>
      let request := decode object in
      match validateFields (tagged request) with
      | Some err => inl err
      | None => inr request
      end
  end.
End Rules.

(** A member missing from the JSON object leaves the field at its zero
    value, the empty string. *)
Definition member (object : gmap string string) (name : string) : string :=
  default "" (object !! name).

End Validation.

(* ===================================================================== *)
(** ** customer_server.go                                                *)
(* ===================================================================== *)

Module CustomerServer.
Import Http Handlers Models Validation.

Record GetCustomerResponse := {
  FirstName : string;
  LastName : string;
  PhoneNumber : string;
  Email : string
}.

Record CreateCustomerRequest := {
  create_FirstName : string;
  create_LastName : string;
  create_PhoneNumber : string;
  create_Email : string;
  create_Password : string
}.

Record LoginCustomerRequest := {
  login_Email : string;
  login_Password : string
}.

Record UpdateCustomerRequest := {
  update_FirstName : string;
  update_LastName : string;
  update_PhoneNumber : string;
  update_Email : string;
  update_Password : string
}.

(** [type CustomerServer struct]; the store it points to is threaded
    through the handlers as their state. *)
Record CustomerServer := {
  secretKey : list byte;
  expiresAt : Z
}.

(** What the customer endpoints encode into their responses. *)
Abbreviation Doc := (Document GetCustomerResponse).

Section Server.
Context `{Jwt.Wire} `{Govalidator} {S : Type} `{CustomerStore S}.

#[export] Instance CreateCustomerRequest_shape : RequestShape CreateCustomerRequest := {
  decode o :=
    {| create_FirstName := member o "FirstName";
       create_LastName := member o "LastName";
       create_PhoneNumber := member o "PhoneNumber";
       create_Email := member o "Email";
       create_Password := member o "Password" |};
  tagged q :=
    [ ("FirstName", [stringlength 2 20], create_FirstName q);
      ("LastName", [stringlength 2 20], create_LastName q);
      ("PhoneNumber", [phonenumber], create_PhoneNumber q);
      ("Email", [email], create_Email q);
      ("Password", [stringlength 2 72], create_Password q) ]
}.

#[export] Instance LoginCustomerRequest_shape : RequestShape LoginCustomerRequest := {
  decode o :=
    {| login_Email := member o "Email";
       login_Password := member o "Password" |};
  tagged q :=
    [ ("Email", [email], login_Email q);
      ("Password", [stringlength 2 72], login_Password q) ]
}.

#[export] Instance UpdateCustomerRequest_shape : RequestShape UpdateCustomerRequest := {
  decode o :=
    {| update_FirstName := member o "FirstName";
       update_LastName := member o "LastName";
       update_PhoneNumber := member o "PhoneNumber";
       update_Email := member o "Email";
       update_Password := member o "Password" |};
  tagged q :=
    [ ("FirstName", [stringlength 2 20], update_FirstName q);
      ("LastName", [stringlength 2 20], update_LastName q);
      ("PhoneNumber", [phonenumber], update_PhoneNumber q);
      ("Email", [email], update_Email q);
      ("Password", [stringlength 2 72], update_Password q) ]
}.

Abbreviation Handler := (HandlerFunc Doc (Env S)).

(** [GenerateJWT(secretKey, expiresAt, subject)] as this package calls
    it, with the expiry given as an instant: the function the earlier
    main package declares as [generateJWT]. *)
Definition GenerateJWT (secretKey : list byte) (expiresAt : Z) (subject : Z)
  : Jwt.Error + string :=
  match Jwt.SignedString Jwt.SigningMethodHS256
          {| Jwt.Subject := Strconv.FormatInt subject;
             Jwt.ExpiresAt := Some (Jwt.NewNumericDate expiresAt) |}
          secretKey with
  | inl err => inl err
  | inr tokenString => inr tokenString
  end.

(** [tokenString, _ := GenerateJWT(...)]: the error is dropped and the
    string is empty when there is one. *)
Definition orEmpty (r : Jwt.Error + string) : string :=
  match r with inl _ => "" | inr tokenString => tokenString end.

(** [id, _ := strconv.Atoi(s)]: the error is dropped and [id] is the
    number [Atoi] returns beside it, zero on a syntax error and the
    nearest bound of [int] on a range error. *)
Definition orZero (r : Strconv.NumError + Z) : Z :=
  match r with
  | inl Strconv.ErrSyntax => 0
  | inl (Strconv.ErrRange clamped) => clamped
  | inr id => id
  end.

Definition respond (code : Z) (text : ErrorText) (w : ResponseWriter Doc)
  : ResponseWriter Doc :=
  Encode (ErrorDocument {| Message := text |}) (WriteHeader code w).

Definition getCustomerFromCreateCustomerRequest
           (createCustomerRequest : CreateCustomerRequest) : Customer :=
  {| Models.Id := 0;
     Models.FirstName := create_FirstName createCustomerRequest;
     Models.LastName := create_LastName createCustomerRequest;
     Models.PhoneNumber := create_PhoneNumber createCustomerRequest;
     Models.Email := create_Email createCustomerRequest;
     Models.Password := create_Password createCustomerRequest |}.

Definition newGetCustomerResponse (customer : Customer) : GetCustomerResponse :=
  {| FirstName := Models.FirstName customer;
     LastName := Models.LastName customer;
     PhoneNumber := Models.PhoneNumber customer;
     Email := Models.Email customer |}.

Definition LoginHandler (c : CustomerServer) : Handler :=
  fun w r env =>
    match ValidateRequest (Req := LoginCustomerRequest) (Body r) with
    | inl err =>
        Returned (respond StatusBadRequest (ValidationText err) w, env)
    | inr loginCustomerRequest =>
        let '(found, env) :=
          getCustomerByEmail env (login_Email loginCustomerRequest) in
        match found with
        | None =>
            Returned (respond StatusUnauthorized
                        (HandlersText ErrMissingCustomer) w, env)
        | Some customer =>
            if negb (String.eqb (Models.Password customer)
                                (login_Password loginCustomerRequest))
            then Returned (respond StatusUnauthorized
                             (HandlersText ErrInvalidCredentials) w, env)
            else
              let loginJWT :=
                orEmpty (GenerateJWT (secretKey c) (expiresAt c)
                                     (Models.Id customer)) in
              let w := WriteHeader StatusAccepted w in
              let w := HeaderAdd "Token" loginJWT w in
              Returned (w, env)
        end
    end.

Definition updateCustomer (c : CustomerServer) : Handler :=
  fun w r env =>
    match Headers r !! "Subject" with
    | None | Some [] => Panicked "index out of range" (w, env)
    | Some (subject :: _) =>
        let id := orZero (Strconv.Atoi subject) in
        let '(customer, env) := getCustomerById env id in
        match ValidateRequest (Req := UpdateCustomerRequest) (Body r) with
        | inl err =>
            Returned (respond StatusBadRequest (ValidationText err) w, env)
        | inr updateCustomerRequest =>
            match customer with
            | None => Panicked "nil pointer dereference" (w, env)
            | Some customer =>
                let customer :=
                  {| Models.Id := Models.Id customer;
                     Models.FirstName := update_FirstName updateCustomerRequest;
                     Models.LastName := update_LastName updateCustomerRequest;
                     Models.PhoneNumber := update_PhoneNumber updateCustomerRequest;
                     Models.Email := update_Email updateCustomerRequest;
                     Models.Password := update_Password updateCustomerRequest |} in
                let '(_, env) := Models.updateCustomer env customer in
                Returned (w, env)
            end
        end
    end.

Definition deleteCustomer (c : CustomerServer) : Handler :=
  fun w r env =>
    match Headers r !! "Subject" with
    | None | Some [] => Panicked "index out of range" (w, env)
    | Some (subject :: _) =>
        let id := orZero (Strconv.Atoi subject) in
        let '(err, env) := Models.deleteCustomer env id in
        match err with
        | Some _ =>
            Returned (respond StatusNotFound
                        (HandlersText ErrMissingCustomer) w, env)
        | None => Returned (w, env)
        end
    end.

Definition storeCustomer (c : CustomerServer) : Handler :=
  fun w r env =>
    match ValidateRequest (Req := CreateCustomerRequest) (Body r) with
    | inl err =>
        Returned (respond StatusBadRequest (ValidationText err) w, env)
    | inr createCustomerRequest =>
        let '(found, env) :=
          getCustomerByEmail env (create_Email createCustomerRequest) in
        match found with
        | Some _ =>
            Returned (respond StatusBadRequest
                        (HandlersText ErrExistingUser) w, env)
        | None =>
            let customer :=
              getCustomerFromCreateCustomerRequest createCustomerRequest in
            let '(customerId, env) := Models.storeCustomer env customer in
            let customerJWT :=
              orEmpty (GenerateJWT (secretKey c) (expiresAt c) customerId) in
            let w := WriteHeader StatusAccepted w in
            let w := HeaderAdd "Token" customerJWT w in
            Returned (w, env)
        end
    end.

Definition getCustomer (c : CustomerServer) : Handler :=
  fun w r env =>
    match Headers r !! "Subject" with
    | None | Some [] => Panicked "index out of range" (w, env)
    | Some (subject :: _) =>
        let id := orZero (Strconv.Atoi subject) in
        let '(found, env) := getCustomerById env id in
        match found with
        | None =>
            Returned (respond StatusNotFound
                        (HandlersText ErrMissingCustomer) w, env)
        | Some customer =>
            let getCustomerResponse := newGetCustomerResponse customer in
            Returned (Encode (ValueDocument getCustomerResponse) w, env)
        end
    end.

(** [CustomerHandler]: a method outside the four cases falls through
    the switch and nothing is written.  [AuthenticationMiddleware] is
    the function of handlers/auth/auth.go. *)
Definition CustomerHandler (c : CustomerServer) (now : Z) : Handler :=
  fun w r env =>
    if String.eqb (Method r) "POST" then storeCustomer c w r env
    else if String.eqb (Method r) "GET" then
      Auth.AuthenticationMiddleware (getCustomer c) (secretKey c) now w r env
    else if String.eqb (Method r) "DELETE" then
      Auth.AuthenticationMiddleware (deleteCustomer c) (secretKey c) now w r env
    else if String.eqb (Method r) "PUT" then
      Auth.AuthenticationMiddleware (updateCustomer c) (secretKey c) now w r env
    else Returned (w, env).

End Server.
End CustomerServer.

(* ===================================================================== *)
(** ** handlers/customer/customer_types.go                               *)
(* ===================================================================== *)

Module CustomerTypes.
Import Models.

Record GetCustomerResponse := {
  Id : Z;
  FirstName : string;
  LastName : string;
  PhoneNumber : string;
  Email : string
}.

(** The composite literal names four of the five fields; [Id] keeps
    Go's zero value. *)
Definition CustomerToGetCustomerResponse (customer : Customer) : GetCustomerResponse :=
  {| Id := 0;
     FirstName := Models.FirstName customer;
     LastName := Models.LastName customer;
     PhoneNumber := Models.PhoneNumber customer;
     Email := Models.Email customer |}.

End CustomerTypes.

(* ===================================================================== *)
(** ** The Authentication Gate's decision procedure                       *)
(* ===================================================================== *)

Module GateSpec.
Import Http Handlers.

(** The five ways the gate can decide on a request. *)
Inductive Decision :=
| MissingToken
| InvalidToken (err : Jwt.Error)
| MissingSubject
| NonIntegerSubject
| Accept (id : Z).

Section Gate.
Context `{Jwt.Wire}.

(** The algorithm of the spec's section 4.2, with the amendment to step
    (3) that the comparison with the code calls for: (1) no token field
    present: [MissingToken]; (2) verification fails: [InvalidToken]
    with the underlying message; (3) subject absent, empty, or present
    as a JSON value that is not a string: [MissingSubject]; a string
    that is not an integer: [NonIntegerSubject]; (4) otherwise the
    parsed subject id is accepted.  The spec's own words for
    [MissingSubject] are "absent or empty" only. *)
Definition decide_request (secretKey : list byte) (now : Z) (r : Request) : Decision :=
  match Headers r !! "Token" ≫= head with
  | None => MissingToken
  | Some tokenString =>
      match Auth.VerifyJWT now tokenString secretKey with
      | inl err => InvalidToken err
      | inr token =>
          match Jwt.sub (Jwt.Claims token) with
          | Jwt.ClaimString subject =>
              if decide (subject = "") then MissingSubject
              else
                match Strconv.Atoi subject with
                | inl _ => NonIntegerSubject
                | inr id => Accept id
                end
          | _ => MissingSubject
          end
      end
  end.

End Gate.

(** The message of a rejection; an accepted request has none. *)
Definition rejection (d : Decision) : option ErrorText :=
  match d with
  | MissingToken => Some (HandlersText ErrMissingToken)
  | InvalidToken err => Some (JwtText err)
  | MissingSubject => Some (HandlersText ErrMissingSubject)
  | NonIntegerSubject => Some (HandlersText ErrNonIntegerSubject)
  | Accept _ => None
  end.

End GateSpec.

(* ===================================================================== *)
(** ** handlers/customer/customer_types.go: requests and responses       *)
(* ===================================================================== *)

Module CustomerRequests.
Import Models.

Record CreateCustomerRequest := {
  creq_FirstName : string;
  creq_LastName : string;
  creq_PhoneNumber : string;
  creq_Email : string;
  creq_Password : string
}.

Definition CustomerToCreateCustomerRequest (customer : Customer) : CreateCustomerRequest :=
  {| creq_FirstName := FirstName customer;
     creq_LastName := LastName customer;
     creq_Email := Email customer;
     creq_PhoneNumber := PhoneNumber customer;
     creq_Password := Password customer |}.

Definition CreateCustomerRequestToCustomer
           (createCustomerRequest : CreateCustomerRequest) : Customer :=
  {| Id := 0;
     FirstName := creq_FirstName createCustomerRequest;
     LastName := creq_LastName createCustomerRequest;
     PhoneNumber := creq_PhoneNumber createCustomerRequest;
     Email := creq_Email createCustomerRequest;
     Password := creq_Password createCustomerRequest |}.

Record CreateCustomerResponse := {
  cres_Id : Z;
  cres_FirstName : string;
  cres_LastName : string;
  cres_PhoneNumber : string;
  cres_Email : string
}.

(** As in [CustomerToGetCustomerResponse], the literal leaves [Id] out. *)
Definition CustomerToCreateCustomerResponse (customer : Customer) : CreateCustomerResponse :=
  {| cres_Id := 0;
     cres_FirstName := FirstName customer;
     cres_LastName := LastName customer;
     cres_PhoneNumber := PhoneNumber customer;
     cres_Email := Email customer |}.

Record LoginCustomerRequest := {
  lreq_Email : string;
  lreq_Password : string
}.

Definition CustomerToLoginCustomerRequest (customer : Customer) : LoginCustomerRequest :=
  {| lreq_Email := Email customer;
     lreq_Password := Password customer |}.

Record UpdateCustomerRequest := {
  ureq_FirstName : string;
  ureq_LastName : string;
  ureq_PhoneNumber : string;
  ureq_Email : string;
  ureq_Password : string
}.

Definition CustomerToUpdateCustomerRequest (customer : Customer) : UpdateCustomerRequest :=
  {| ureq_FirstName := FirstName customer;
     ureq_LastName := LastName customer;
     ureq_Email := Email customer;
     ureq_PhoneNumber := PhoneNumber customer;
     ureq_Password := Password customer |}.

Definition UpdateCustomerRequestToCustomer
           (updateCustomerRequest : UpdateCustomerRequest) (id : Z) : Customer :=
  {| Id := id;
     FirstName := ureq_FirstName updateCustomerRequest;
     LastName := ureq_LastName updateCustomerRequest;
     Email := ureq_Email updateCustomerRequest;
     PhoneNumber := ureq_PhoneNumber updateCustomerRequest;
     Password := ureq_Password updateCustomerRequest |}.

End CustomerRequests.

(* ===================================================================== *)
(** ** handlers/customer/customer_routes.go                              *)
(* ===================================================================== *)

Module CustomerRoutes.
Import Http Handlers.

(** [type CustomerServer struct]; [expiresAt] is a [time.Duration] here. *)
Record CustomerServer := {
  secretKey : list byte;
  expiresAt : Z
}.

Section Routes.
Context `{Jwt.Wire} {R St : Type}.

(** The four methods of the server this file dispatches to; their bodies
    are in files of the package that are not among the sources. *)
Variables createCustomer getCustomer deleteCustomer updateCustomer :
  CustomerServer -> HandlerFunc (Document R) St.

(** [CustomerHandler]: POST goes to [createCustomer] directly, GET,
    DELETE and PUT go through [auth.AuthenticationMiddleware]; any other
    method falls through the switch. *)
Definition CustomerHandler (c : CustomerServer) (now : Z) : HandlerFunc (Document R) St :=
  fun w r st =>
    if String.eqb (Method r) "POST" then createCustomer c w r st
    else if String.eqb (Method r) "GET" then
      Auth.AuthenticationMiddleware (getCustomer c) (secretKey c) now w r st
    else if String.eqb (Method r) "DELETE" then
      Auth.AuthenticationMiddleware (deleteCustomer c) (secretKey c) now w r st
    else if String.eqb (Method r) "PUT" then
      Auth.AuthenticationMiddleware (updateCustomer c) (secretKey c) now w r st
    else Returned (w, st).

End Routes.
End CustomerRoutes.

(* ===================================================================== *)
(** ** The earlier main package: stub store and token helpers            *)
(* ===================================================================== *)

Module Main.
Import Http.

(** [type StubCustomerStore struct { customers []GetCustomerResponse }] *)
Definition StubCustomerStore := list CustomerServer.GetCustomerResponse.

(** How [GetCustomerInfo] ends: with the record, with its error, or in
    the panic of an index outside the slice. *)
Inductive Lookup :=
| Info (customerInfo : CustomerServer.GetCustomerResponse)
| NoCustomer (id : Z)
| IndexOutOfRange.

(** [GetCustomerInfo(id)]: the guard is [len(s.customers) < id], and
    [s.customers[id]] panics for an index that is negative or not below
    the length. *)
Definition GetCustomerInfo (s : StubCustomerStore) (id : Z) : Lookup :=
  if Z.of_nat (length s) <? id then NoCustomer id
  else if id <? 0 then IndexOutOfRange
  else
    match s !! Z.to_nat id with
    | Some customerInfo => Info customerInfo
    | None => IndexOutOfRange
    end.

Section Tokens.
Context `{Jwt.Wire}.

(** [generateJWT(secretKey, expiresAt, subject)], the expiry an instant.
    (The test file's helper of the same name takes the subject second
    and has the same body.) *)
Definition generateJWT (secretKey : list byte) (expiresAt : Z) (subject : Z)
  : Jwt.Error + string :=
  match Jwt.SignedString Jwt.SigningMethodHS256
          {| Jwt.Subject := Strconv.FormatInt subject;
             Jwt.ExpiresAt := Some (Jwt.NewNumericDate expiresAt) |}
          secretKey with
  | inl err => inl err
  | inr tokenString => inr tokenString
  end.

(** [verifyJWT(jwtString, secretKey)], called at the instant [now]. *)
Definition verifyJWT (now : Z) (jwtString : string) (secretKey : list byte)
  : Jwt.Error + Jwt.Token :=
  match Jwt.Parse now jwtString secretKey [Jwt.Alg Jwt.SigningMethodHS256] with
  | inl err => inl err
  | inr token => inr token
  end.

End Tokens.

(** [newGetCustomerRequest(jwt)]: a fresh GET request with the token
    added under [Token]. *)
Definition newGetCustomerRequest (jwt : string) : Request :=
  {| Method := "GET"; Headers := Add "Token" jwt ∅; Body := None |}.

End Main.

(* ===================================================================== *)
(** ** The phone-number pattern in words                                 *)
(* ===================================================================== *)

Module PhoneSpec.

(** Follows the words of the pattern [^\+[\d ]+$]: a character of the
    class [[\d ]] is a decimal digit or a space. *)
Definition phone_char (ch : ascii) : Prop :=
  (48 <= N_of_ascii ch <= 57)%N \/ ch = " "%char.

End PhoneSpec.

(* ===================================================================== *)
(** ** Reference instances of the parameters                             *)
(* ===================================================================== *)

(** To run the model on concrete requests, and to show that what is
    assumed of the parameters can be met, each gets a small instance. *)
Module Reference.
Import Models.

(** Text for a positive number: its bits, lowest first. *)
Fixpoint pos_to_string (p : positive) : string :=
  match p with
  | xH => ""
  | xO p' => String "0" (pos_to_string p')
  | xI p' => String "1" (pos_to_string p')
  end.

Fixpoint string_to_pos (s : string) : option positive :=
  match s with
  | EmptyString => Some xH
  | String c s' =>
      if Ascii.eqb c "0" then xO <$> string_to_pos s'
      else if Ascii.eqb c "1" then xI <$> string_to_pos s'
      else None
  end.

#[export] Instance ClaimValue_eq_dec : EqDecision Jwt.ClaimValue.
Proof. solve_decision. Defined.

#[export] Instance MapClaims_eq_dec : EqDecision Jwt.MapClaims.
Proof. solve_decision. Defined.

Definition ClaimValue_to (v : Jwt.ClaimValue) : option (option string) :=
  match v with
  | Jwt.ClaimAbsent => None
  | Jwt.ClaimString s => Some (Some s)
  | Jwt.ClaimOther => Some None
  end.

Definition ClaimValue_of (o : option (option string)) : Jwt.ClaimValue :=
  match o with
  | None => Jwt.ClaimAbsent
  | Some (Some s) => Jwt.ClaimString s
  | Some None => Jwt.ClaimOther
  end.

#[export] Instance ClaimValue_countable : Countable Jwt.ClaimValue.
Proof.
  refine (inj_countable' ClaimValue_to ClaimValue_of _).
  intros []; reflexivity.
Defined.

#[export] Instance MapClaims_countable : Countable Jwt.MapClaims.
Proof.
  refine (inj_countable'
            (fun c => (Jwt.sub c, Jwt.exp c))
            (fun p => {| Jwt.sub := fst p; Jwt.exp := snd p |}) _).
  intros []; reflexivity.
Defined.

Abbreviation bytes_of_string := Jwt.bytes_of_string.

(** A toy digest: the two bytes of a polynomial checksum. *)
Definition checksum (data : list byte) : list byte :=
  let n := fold_left (fun acc b => (acc * 31 + Byte.to_N b + 1) mod 65521)%N
                     data 7%N in
  [default x00 (Byte.of_N (n / 256)); default x00 (Byte.of_N (n mod 256))].

(** A toy serialization (the bits of an injective numbering) and a toy
    digest: enough to issue and parse tokens, with no claim to being
    JSON, base64 or SHA-2. *)
#[export] Instance wire : Jwt.Wire := {
  Jwt.SigningString h c := pos_to_string (encode (h, c));
  Jwt.Compact sstr sig := pos_to_string (encode (sstr, sig));
  Jwt.Segments s :=
    p ← string_to_pos s;
    '(sstr, sig) ← decode (A := string * list byte) p;
    q ← string_to_pos sstr;
    '(h, c) ← decode (A := Jwt.JoseHeader * Jwt.MapClaims) q;
    Some (h, c, sstr, sig);
  Jwt.hash _ data := checksum data
}.

Fixpoint contains_at (s : string) : bool :=
  match s with
  | EmptyString => false
  | String c s' => Ascii.eqb c "@" || contains_at s'
  end.

#[export] Instance govalidator : Validation.Govalidator := {
  Validation.IsEmail := contains_at
}.

(** An in-memory customer store: the records in insertion order, ids
    handed out from the length of the list. *)
Definition has_id (id : Z) (c : Customer) : bool := Id c =? id.

#[export] Instance memory : CustomerStore (list Customer) := {
  GetCustomerById s id := List.find (has_id id) s;
  GetCustomerByEmail s email :=
    List.find (fun c => String.eqb (Email c) email) s;
  StoreCustomer s c :=
    let id := Z.of_nat (length s) + 1 in
    (id, (s ++ [{| Id := id; FirstName := FirstName c; LastName := LastName c;
                   PhoneNumber := PhoneNumber c; Email := Email c;
                   Password := Password c |}])%list);
  DeleteCustomer s id :=
    match List.find (has_id id) s with
    | None => (Some "no such customer", s)
    | Some _ => (None, List.filter (fun c => negb (has_id id c)) s)
    end;
  UpdateCustomer s c :=
    match List.find (has_id (Id c)) s with
    | None => (Some "no such customer", s)
    | Some _ =>
        (None, List.map (fun c' => if has_id (Id c) c' then c else c') s)
    end
}.

(** The two customers of the test data. *)
Definition Peter : Customer :=
  {| Id := 1; FirstName := "Peter"; LastName := "Smith";
     PhoneNumber := "+359 88 576 5981"; Email := "petesmith@gmail.com";
     Password := "firefirefire" |}.

(** Peter again, under another password. *)
Definition Peter' : Customer :=
  {| Id := 1; FirstName := "Peter"; LastName := "Smith";
     PhoneNumber := "+359 88 576 5981"; Email := "petesmith@gmail.com";
     Password := "waterwaterwater" |}.

Definition Alice : Customer :=
  {| Id := 2; FirstName := "Alice"; LastName := "Johnson";
     PhoneNumber := "+359 88 444 2222"; Email := "alicejohn@gmail.com";
     Password := "helloJohn123" |}.

Definition object (members : list (string * string)) : gmap string string :=
  list_to_map members.

Definition customerObject (c : Customer) : gmap string string :=
  object [ ("FirstName", FirstName c); ("LastName", LastName c);
           ("PhoneNumber", PhoneNumber c); ("Email", Email c);
           ("Password", Password c) ].

Definition server : CustomerServer.CustomerServer :=
  {| CustomerServer.secretKey := bytes_of_string "secret";
     CustomerServer.expiresAt := 4102444800 * Jwt.Second |}.

(** A claim set that expires five seconds into the epoch, and the token
    string carrying a claim set under a given header and key. *)
Definition expiredClaims : Jwt.MapClaims :=
  {| Jwt.sub := Jwt.ClaimString "1"; Jwt.exp := Some 5000000000 |}.

Definition tokenFor (alg : string) (c : Jwt.MapClaims) (key : list byte) : string :=
  let sstr := Jwt.SigningString (Some alg) c in
  Jwt.Compact sstr (Jwt.hmac Jwt.SHA256 key sstr).

(** The store of the tests, the instant requests arrive at, and requests
    carrying a token the server issued. *)
Definition customers : list Customer := [Peter; Alice].

Definition env0 : Env (list Customer) := {| store := customers; calls := [] |}.

Definition empty0 : Env (list Customer) := {| store := []; calls := [] |}.

Definition now0 : Z := 1700000000 * Jwt.Second.

Definition tokenOf (id : Z) : string :=
  CustomerServer.orEmpty
    (CustomerServer.GenerateJWT (CustomerServer.secretKey server)
                                (CustomerServer.expiresAt server) id).

Definition withToken (method tokenString : string)
           (body : option (gmap string string)) : Http.Request :=
  {| Http.Method := method;
     Http.Headers := {[ "Token" := [tokenString] ]};
     Http.Body := body |}.

Definition noToken : Http.Request :=
  {| Http.Method := "GET"; Http.Headers := ∅; Http.Body := None |}.

(** Peter's record with a telephone number that is no telephone number. *)
Definition badPhone : gmap string string :=
  object [ ("FirstName", "Peter"); ("LastName", "Smith");
           ("PhoneNumber", "abc"); ("Email", "petesmith@gmail.com");
           ("Password", "firefirefire") ].

Definition postCustomer (c : Customer) : Http.Request :=
  {| Http.Method := "POST"; Http.Headers := ∅;
     Http.Body := Some (customerObject c) |}.

Definition postLogin (c : Customer) : Http.Request :=
  {| Http.Method := "POST"; Http.Headers := ∅;
     Http.Body := Some (object [ ("Email", Email c); ("Password", Password c) ]) |}.

(** A request as the gate hands it on, with the subject in its header. *)
Definition pastGate (method : string) (id : Z)
           (body : option (gmap string string)) : Http.Request :=
  {| Http.Method := method;
     Http.Headers := {[ "Subject" := [Strconv.Itoa id] ]};
     Http.Body := body |}.

(** The bad telephone number on a create request, which carries no
    token and no subject. *)
Definition postBadPhone : Http.Request :=
  {| Http.Method := "POST"; Http.Headers := ∅; Http.Body := Some badPhone |}.

(** Peter, with his token, sending the bad telephone number. *)
Definition putBadPhone : Http.Request := withToken "PUT" (tokenOf 1) (Some badPhone).

(** A valid token for subject 3, who is in no store. *)
Definition putNobody : Http.Request :=
  withToken "PUT" (tokenOf 3) (Some (customerObject Peter)).

(** Tokens for the gate's failure cases, as the test helpers make them. *)
Definition tokenWithoutSubject : string :=
  CustomerServer.orEmpty
    (Auth.GenerateJWTWithoutSubject now0 (CustomerServer.secretKey server) Jwt.Second).

Definition tokenWithTextSubject : string :=
  CustomerServer.orEmpty
    (Auth.GenerateJWTWithStringSubject now0 (CustomerServer.secretKey server)
                                       Jwt.Second "peter").

(** A token signed with the server's secret whose [sub] entry is a JSON
    number, as another issuer holding the secret could make it. *)
Definition tokenWithNumberSubject : string :=
  tokenFor "HS256"
           {| Jwt.sub := Jwt.ClaimOther;
              Jwt.exp := Some (Jwt.NewNumericDate (now0 + Jwt.Second)) |}
           (CustomerServer.secretKey server).

End Reference.

(* ===================================================================== *)
(** ** More requests and records to run the model on                     *)
(* ===================================================================== *)

Module Fixtures.
Import Models Reference.

(** Alice's token on a request that names Peter under [Subject]. *)
Definition aliceAsPeter : Http.Request :=
  {| Http.Method := "GET";
     Http.Headers := {[ "Token" := [tokenOf 2]; "Subject" := ["1"] ]};
     Http.Body := None |}.

(** Alice's token on a request of any method that names another
    customer under [Subject]. *)
Definition aliceAs (method claimed : string)
           (body : option (gmap string string)) : Http.Request :=
  {| Http.Method := method;
     Http.Headers := {[ "Token" := [tokenOf 2]; "Subject" := [claimed] ]};
     Http.Body := body |}.

Definition loginPeter : CustomerServer.LoginCustomerRequest :=
  {| CustomerServer.login_Email := "petesmith@gmail.com";
     CustomerServer.login_Password := "firefirefire" |}.

Definition createPeter : CustomerServer.CreateCustomerRequest :=
  {| CustomerServer.create_FirstName := "Peter";
     CustomerServer.create_LastName := "Smith";
     CustomerServer.create_PhoneNumber := "+359 88 576 5981";
     CustomerServer.create_Email := "petesmith@gmail.com";
     CustomerServer.create_Password := "firefirefire" |}.

Definition updatePeter : CustomerServer.UpdateCustomerRequest :=
  {| CustomerServer.update_FirstName := "Peter";
     CustomerServer.update_LastName := "Smith";
     CustomerServer.update_PhoneNumber := "+359 88 576 5981";
     CustomerServer.update_Email := "petesmith@gmail.com";
     CustomerServer.update_Password := "waterwaterwater" |}.

(** A server of the routes file, tokens living one second. *)
Definition routesServer : CustomerRoutes.CustomerServer :=
  {| CustomerRoutes.secretKey := bytes_of_string "secret";
     CustomerRoutes.expiresAt := Jwt.Second |}.

(** An endpoint that must not run. *)
Definition forbidden : CustomerRoutes.CustomerServer ->
                       Http.HandlerFunc (Handlers.Document unit) unit :=
  fun _ w _ st => Http.Panicked "endpoint ran" (w, st).

Definition key : list byte := bytes_of_string "secret".

(** A server whose fixed expiry instant lies in the past at [now0]. *)
Definition staleServer : CustomerServer.CustomerServer :=
  {| CustomerServer.secretKey := bytes_of_string "secret";
     CustomerServer.expiresAt := 5 * Jwt.Second |}.

Definition staleToken : string :=
  CustomerServer.orEmpty
    (CustomerServer.GenerateJWT (CustomerServer.secretKey staleServer)
                                (CustomerServer.expiresAt staleServer) 1).

End Fixtures.

(* ===================================================================== *)
(** * Properties                                                         *)
(* ===================================================================== *)

(** ** strconv *)

Module StrconvFacts.
Import Strconv.

Lemma digit_of_digit_char (d : Z) :
  0 <= d <= 9 -> digit_of (digit_char d) = Some d.
Proof.
  intros Hd.
  assert (d = 0 \/ d = 1 \/ d = 2 \/ d = 3 \/ d = 4 \/
          d = 5 \/ d = 6 \/ d = 7 \/ d = 8 \/ d = 9) as Hcases by lia.
  repeat (destruct Hcases as [-> | Hcases]; [reflexivity |]).
  subst d. reflexivity.
Qed.

Lemma digit_char_not_sign (d : Z) :
  0 <= d <= 9 ->
  Ascii.eqb (digit_char d) "-" = false /\ Ascii.eqb (digit_char d) "+" = false.
Proof.
  intros Hd.
  assert (d = 0 \/ d = 1 \/ d = 2 \/ d = 3 \/ d = 4 \/
          d = 5 \/ d = 6 \/ d = 7 \/ d = 8 \/ d = 9) as Hcases by lia.
  repeat (destruct Hcases as [-> | Hcases]; [split; reflexivity |]).
  subst d. split; reflexivity.
Qed.

(** Reading back what [formatBits] wrote in front of [acc] leaves the
    parser at [acc] with the printed number as its accumulator. *)
Lemma parse_formatBits (fuel : nat) :
  forall (u : Z) (acc : string),
    0 <= u < 10 ^ Z.of_nat fuel ->
    parse_digits (formatBits fuel u acc) 0 = parse_digits acc u.
Proof.
  induction fuel as [| fuel IH]; intros u acc Hu.
  - assert (u = 0) as -> by (simpl in Hu; lia). reflexivity.
  - cbn [formatBits]. destruct (Z.ltb_spec u 10) as [Hlt | Hge].
    + cbn [parse_digits]. rewrite digit_of_digit_char by lia. reflexivity.
    + rewrite IH.
      * cbn [parse_digits].
        rewrite digit_of_digit_char by (pose proof (Z.mod_pos_bound u 10); lia).
        f_equal. pose proof (Z.div_mod u 10). lia.
      * rewrite Nat2Z.inj_succ, Z.pow_succ_r in Hu by lia.
        split; [apply Z.div_pos; lia |].
        apply Z.div_lt_upper_bound; lia.
Qed.

(** [formatBits] always writes at least one character, and the first
    one is a digit. *)
Lemma formatBits_head (fuel : nat) :
  forall (u : Z) (acc : string),
    0 <= u < 10 ^ Z.of_nat (S fuel) ->
    exists d s,
      0 <= d <= 9 /\ formatBits (S fuel) u acc = String (digit_char d) s.
Proof.
  induction fuel as [| fuel IH]; intros u acc Hu;
    cbn [formatBits]; destruct (Z.ltb_spec u 10) as [Hlt | Hge];
    try (exists u, acc; split; [lia | reflexivity]).
  - simpl in Hu. lia.
  - apply IH.
    rewrite Nat2Z.inj_succ, Z.pow_succ_r in Hu by lia.
    split; [apply Z.div_pos; lia |].
    apply Z.div_lt_upper_bound; lia.
Qed.

Lemma Atoi_unsigned (s : string) (d : Z) (t : string) (un : Z) :
  s = String (digit_char d) t -> 0 <= d <= 9 ->
  parse_digits s 0 = Some un ->
  Atoi s = if un >=? 2 ^ 63 then inl (ErrRange MaxInt) else inr un.
Proof.
  intros -> Hd Hp. unfold Atoi.
  destruct (digit_char_not_sign d Hd) as [-> ->]. cbn [orb].
  rewrite Hp. reflexivity.
Qed.

Lemma Atoi_negative (c : ascii) (t : string) (un : Z) :
  parse_digits (String c t) 0 = Some un ->
  Atoi (String "-" (String c t)) =
    if un >? 2 ^ 63 then inl (ErrRange MinInt) else inr (- un).
Proof.
  intros Hp. unfold Atoi.
  replace (Ascii.eqb "-" "-") with true by reflexivity.
  cbv zeta. cbn [orb]. rewrite Hp. reflexivity.
Qed.

(** Parsing inverts formatting on every value of Go's [int], the
    smallest one included. *)
Lemma Atoi_FormatInt (i : Z) : is_int i -> Atoi (FormatInt i) = inr i.
Proof.
  unfold is_int, MinInt, MaxInt, FormatInt. intros Hi.
  destruct (Z.ltb_spec i 0) as [Hneg | Hpos].
  - assert (0 <= - i < 10 ^ Z.of_nat 20) as Hu by (simpl; lia).
    destruct (formatBits_head 19 (- i) "" Hu) as (d & t & Hd & Heq).
    pose proof (parse_formatBits 20 (- i) "" Hu) as Hp.
    rewrite Heq in *. rewrite (Atoi_negative _ _ _ Hp).
    destruct (Z.gtb_spec (- i) (2 ^ 63)); [lia |].
    f_equal. lia.
  - assert (0 <= i < 10 ^ Z.of_nat 20) as Hu by (simpl; lia).
    destruct (formatBits_head 19 i "" Hu) as (d & t & Hd & Heq).
    pose proof (parse_formatBits 20 i "" Hu) as Hp.
    rewrite (Atoi_unsigned _ d t i Heq Hd Hp).
    destruct (Z.geb_spec i (2 ^ 63)); [lia | reflexivity].
Qed.

Lemma digit_of_range (c : ascii) (d : Z) :
  Strconv.digit_of c = Some d -> 0 <= d <= 9.
Proof.
  unfold Strconv.digit_of. cbv zeta.
  destruct (Z.leb_spec 48 (Z.of_N (N_of_ascii c)));
    destruct (Z.leb_spec (Z.of_N (N_of_ascii c)) 57);
    cbn [andb]; intros [= <-]; lia.
Qed.

Lemma parse_digits_nonneg (s : string) :
  forall acc n : Z,
    0 <= acc -> Strconv.parse_digits s acc = Some n -> 0 <= n.
Proof.
  induction s as [| c s IH]; intros acc n Hacc; cbn [Strconv.parse_digits].
  - intros [= <-]. exact Hacc.
  - destruct (Strconv.digit_of c) as [d |] eqn:Hd; [| discriminate].
    apply digit_of_range in Hd. apply IH. lia.
Qed.

(** What [Atoi] returns fits Go's [int]. *)
Lemma Atoi_is_int (s : string) (n : Z) :
  Strconv.Atoi s = inr n -> Strconv.is_int n.
Proof.
  unfold Strconv.Atoi, Strconv.is_int, Strconv.MinInt, Strconv.MaxInt.
  destruct s as [| c rest]; [discriminate |]. cbv zeta.
  destruct (if (Ascii.eqb c "-" || Ascii.eqb c "+")%bool then rest
            else String c rest) as [| c' body] eqn:Hbody; [discriminate |].
  destruct (Strconv.parse_digits (String c' body) 0) as [un |] eqn:Hp;
    [| discriminate].
  apply parse_digits_nonneg in Hp; [| lia].
  destruct (Ascii.eqb c "-").
  - destruct (Z.gtb_spec un (2 ^ 63)); [discriminate |]. intros [= <-]. lia.
  - destruct (Z.geb_spec un (2 ^ 63)); [discriminate |]. intros [= <-]. lia.
Qed.

(** A range error comes with one of the two bounds. *)
Lemma Atoi_ErrRange (s : string) (clamped : Z) :
  Atoi s = inl (ErrRange clamped) -> clamped = MinInt \/ clamped = MaxInt.
Proof.
  unfold Atoi. destruct s as [| c rest]; [discriminate |]. cbv zeta.
  destruct (if (Ascii.eqb c "-" || Ascii.eqb c "+")%bool then rest
            else String c rest) as [| c' body]; [discriminate |].
  destruct (parse_digits (String c' body) 0) as [un |]; [| discriminate].
  destruct (Ascii.eqb c "-").
  - destruct (un >? 2 ^ 63); intros [= <-]. by left.
  - destruct (un >=? 2 ^ 63); intros [= <-]. by right.
Qed.

Example FormatInt_min : FormatInt MinInt = "-9223372036854775808".
Proof. reflexivity. Qed.

Example Atoi_plus : Atoi "+42" = inr 42.
Proof. reflexivity. Qed.

Example Atoi_letters : Atoi "abc" = inl ErrSyntax.
Proof. reflexivity. Qed.

Example Atoi_too_big :
  Atoi "9223372036854775808" = inl (ErrRange 9223372036854775807).
Proof. reflexivity. Qed.

Example Atoi_too_small :
  Atoi "-9223372036854775809" = inl (ErrRange (-9223372036854775808)).
Proof. reflexivity. Qed.

End StrconvFacts.

(** ** net/http *)

Module HttpFacts.
Import Http.

Lemma WriteHeader_status {V} (code : Z) (w : ResponseWriter V) :
  wroteHeader w = false -> status (WriteHeader code w) = code.
Proof. intros Hw. unfold WriteHeader. rewrite Hw. reflexivity. Qed.

Lemma WriteHeader_wrote {V} (code : Z) (w : ResponseWriter V) :
  wroteHeader (WriteHeader code w) = true.
Proof. unfold WriteHeader. destruct (wroteHeader w) eqn:E; auto. Qed.

Lemma WriteHeader_sentHeader {V} (code : Z) (w : ResponseWriter V) :
  wroteHeader w = false -> sentHeader (WriteHeader code w) = header w.
Proof. intros Hw. unfold WriteHeader. rewrite Hw. reflexivity. Qed.

Lemma WriteHeader_idem {V} (c1 c2 : Z) (w : ResponseWriter V) :
  WriteHeader c2 (WriteHeader c1 w) = WriteHeader c1 w.
Proof.
  unfold WriteHeader at 1. rewrite WriteHeader_wrote. reflexivity.
Qed.

Lemma Encode_status {V} (v : V) (code : Z) (w : ResponseWriter V) :
  status (Encode v (WriteHeader code w)) = status (WriteHeader code w).
Proof. unfold Encode. rewrite WriteHeader_idem. reflexivity. Qed.

Lemma Add_lookup (key value : string) (h : Header) :
  Add key value h !! key = Some (default [] (h !! key) ++ [value])%list.
Proof. unfold Add. apply lookup_insert_eq. Qed.

Lemma Add_lookup_ne (key key' value : string) (h : Header) :
  key <> key' -> Add key value h !! key' = h !! key'.
Proof. intros Hne. unfold Add. by apply lookup_insert_ne. Qed.

End HttpFacts.

(** ** unicode/utf8 *)

Module Utf8Facts.
Import Utf8.

(** On text that is all ASCII the rune count is the byte count. *)
Lemma count_ascii (bytes : list N) :
  Forall (fun c => (c < 128)%N) bytes -> count 0 bytes = length bytes.
Proof.
  induction 1 as [| c rest Hc _ IH]; [reflexivity |].
  cbn [count length]. unfold advance.
  destruct (N.ltb_spec c 128) as [_ | Hge]; [| lia].
  cbn [Nat.sub]. by rewrite IH.
Qed.

(** Two bytes, one rune: U+00E9. *)
Example count_two_byte_rune : count 0 [195; 169]%N = 1%nat.
Proof. reflexivity. Qed.

(** Three bytes, one rune: U+20AC. *)
Example count_three_byte_rune : count 0 [226; 130; 172]%N = 1%nat.
Proof. reflexivity. Qed.

(** An encoded surrogate is malformed: each of its bytes counts. *)
Example count_surrogate : count 0 [237; 160; 128]%N = 3%nat.
Proof. reflexivity. Qed.

(** A sequence cut short counts as one rune per byte. *)
Example count_truncated : count 0 [240; 159; 152]%N = 3%nat.
Proof. reflexivity. Qed.

Example RuneCountInString_Peter : RuneCountInString "Peter" = 5%nat.
Proof. reflexivity. Qed.

End Utf8Facts.

(** ** The reference instances meet the laws *)

Module ReferenceFacts.
Import Reference.

Lemma string_to_pos_to_string (p : positive) :
  string_to_pos (pos_to_string p) = Some p.
Proof.
  induction p as [p IH | p IH |]; cbn [pos_to_string string_to_pos].
  - replace (Ascii.eqb "1" "0") with false by reflexivity.
    replace (Ascii.eqb "1" "1") with true by reflexivity.
    rewrite IH. reflexivity.
  - replace (Ascii.eqb "0" "0") with true by reflexivity.
    rewrite IH. reflexivity.
  - reflexivity.
Qed.

#[export] Instance wire_laws : Jwt.WireLaws.
Proof.
  constructor. intros h c sig.
  cbn [Jwt.Segments Jwt.Compact Jwt.SigningString wire].
  rewrite string_to_pos_to_string. cbn [mbind option_bind].
  rewrite decode_encode. cbn [mbind option_bind].
  rewrite string_to_pos_to_string. cbn [mbind option_bind].
  rewrite decode_encode. reflexivity.
Qed.

End ReferenceFacts.

(** ** The token codec: issue, verify, subject extraction *)

Module AuthFacts.
Import Http Handlers Auth.

Lemma GetSigningMethod_HS256 :
  Jwt.GetSigningMethod "HS256" = Some Jwt.SigningMethodHS256.
Proof. reflexivity. Qed.

(** The registry returns a method under the name it was asked for. *)
Lemma GetSigningMethod_Alg (alg : string) (m : Jwt.SigningMethod) :
  Jwt.GetSigningMethod alg = Some m -> Jwt.Alg m = alg.
Proof.
  unfold Jwt.GetSigningMethod. intros Hfind.
  apply List.find_some in Hfind as [_ Heq].
  by apply String.eqb_eq.
Qed.

Lemma FormatInt_nonempty (i : Z) : Strconv.is_int i -> Strconv.FormatInt i <> "".
Proof.
  unfold Strconv.is_int, Strconv.MinInt, Strconv.MaxInt, Strconv.FormatInt.
  intros Hi. destruct (Z.ltb_spec i 0) as [Hneg | Hpos]; [discriminate |].
  assert (0 <= i < 10 ^ Z.of_nat 20) as Hu by (simpl; lia).
  destruct (StrconvFacts.formatBits_head 19 i "" Hu) as (d & t & _ & ->).
  discriminate.
Qed.

Section Codec.
Context `{Jwt.Wire}.

(** What [VerifyJWT] does with a token string whose three segments
    decode and whose header names HS256. *)
Lemma VerifyJWT_HS256 (now : Z) (jwtString : string) (secretKey : list byte)
      (c : Jwt.MapClaims) (sstr : string) (sig : list byte) :
  Jwt.Segments jwtString = Some (Some "HS256", c, sstr, sig) ->
  VerifyJWT now jwtString secretKey =
    if decide (sig = Jwt.hmac Jwt.SHA256 secretKey sstr) then
      match Jwt.Validate now c with
      | Some err => inl err
      | None =>
          inr {| Jwt.Raw := jwtString; Jwt.Method := Jwt.SigningMethodHS256;
                 Jwt.Header := Some "HS256"; Jwt.Claims := c;
                 Jwt.Signature := sig; Jwt.Valid := true |}
      end
    else inl Jwt.ErrTokenSignatureInvalid.
Proof.
  intros Hseg. unfold VerifyJWT, Jwt.Parse, Jwt.ParseUnverified.
  rewrite Hseg, GetSigningMethod_HS256.
  cbn [Jwt.Method Jwt.Signature Jwt.Claims Jwt.Raw Jwt.Header].
  replace (existsb _ _) with true by reflexivity. cbn [negb].
  unfold Jwt.Verify, Jwt.SigningMethodHS256.
  destruct (decide _); [| reflexivity].
  destruct (Jwt.Validate now c); reflexivity.
Qed.

(** A header that does not name HS256 is refused before any key or
    claim is looked at. *)
Lemma VerifyJWT_other_alg (now : Z) (jwtString : string) (secretKey : list byte)
      (h : Jwt.JoseHeader) (c : Jwt.MapClaims) (sstr : string) (sig : list byte) :
  Jwt.Segments jwtString = Some (h, c, sstr, sig) ->
  h <> Some "HS256" ->
  VerifyJWT now jwtString secretKey = inl Jwt.ErrTokenUnverifiable \/
  VerifyJWT now jwtString secretKey = inl Jwt.ErrTokenSignatureInvalid.
Proof.
  intros Hseg Hh. unfold VerifyJWT, Jwt.Parse, Jwt.ParseUnverified.
  rewrite Hseg. destruct h as [alg |]; [| by left].
  destruct (Jwt.GetSigningMethod alg) as [m |] eqn:Hm; [| by left].
  apply GetSigningMethod_Alg in Hm. cbn [Jwt.Method]. rewrite Hm.
  cbn [existsb Jwt.Alg Jwt.SigningMethodHS256 orb].
  destruct (String.eqb_spec alg "HS256") as [-> | Hne]; [congruence |].
  right. reflexivity.
Qed.

Lemma GenerateJWT_eq (issuedAt : Z) (secretKey : list byte) (expiresAt subject : Z) :
  GenerateJWT issuedAt secretKey expiresAt subject =
    let c := Jwt.claimSet
               {| Jwt.Subject := Strconv.FormatInt subject;
                  Jwt.ExpiresAt := Some (Jwt.NewNumericDate (issuedAt + expiresAt)) |} in
    let sstr := Jwt.SigningString (Some "HS256") c in
    inr (Jwt.Compact sstr (Jwt.hmac Jwt.SHA256 secretKey sstr)).
Proof. reflexivity. Qed.

End Codec.

(** C2, as amended.  Round trip of the token codec: for every secret,
    every subject that is a Go [int], and every issue instant and
    lifetime, [GenerateJWT] issues a token; verified by [VerifyJWT] with
    the same secret at an instant strictly before its expiry, which is
    the end of the lifetime cut down to whole seconds, the token is
    accepted and [getIDFromToken] returns exactly the subject it was
    issued for; verified at that expiry or later it is refused as
    expired. *)
Theorem GenerateJWT_VerifyJWT_roundtrip `{Jwt.WireLaws}
        (secretKey : list byte) (subject issuedAt expiresAt now : Z) :
  Strconv.is_int subject ->
  exists tokenString,
    GenerateJWT issuedAt secretKey expiresAt subject = inr tokenString /\
    (now < Jwt.NewNumericDate (issuedAt + expiresAt) ->
     exists token,
       VerifyJWT now tokenString secretKey = inr token /\
       getIDFromToken token = inr subject) /\
    (Jwt.NewNumericDate (issuedAt + expiresAt) <= now ->
     VerifyJWT now tokenString secretKey = inl Jwt.ErrTokenExpired).
Proof.
  intros Hint. rewrite GenerateJWT_eq. cbv zeta.
  eexists. split; [reflexivity |].
  rewrite (VerifyJWT_HS256 now _ secretKey _ _ _ (Jwt.Segments_Compact _ _ _)).
  rewrite decide_True by reflexivity.
  unfold Jwt.Validate, Jwt.claimSet. cbn [Jwt.exp Jwt.ExpiresAt Jwt.Subject].
  split; intros Hnow;
    destruct (Z.ltb_spec now (Jwt.NewNumericDate (issuedAt + expiresAt)));
    try lia; [| reflexivity].
  eexists. split; [reflexivity |].
  unfold getIDFromToken, Jwt.GetSubject. cbn [Jwt.Claims Jwt.sub].
  rewrite decide_False by (by apply FormatInt_nonempty).
  rewrite bool_decide_eq_false_2 by (intros Hne; by apply Hne).
  rewrite bool_decide_eq_false_2 by (by apply FormatInt_nonempty).
  cbn [orb]. rewrite StrconvFacts.Atoi_FormatInt by done. reflexivity.
Qed.

Lemma GenerateJWT_VerifyJWT_roundtrip_witness :
  exists tokenString token,
    GenerateJWT (H := Reference.wire)
      1500000000 (Reference.bytes_of_string "secret") 3000000000 (-42)
      = inr tokenString /\
    VerifyJWT (H := Reference.wire)
      3999999999 tokenString (Reference.bytes_of_string "secret")
      = inr token /\
    getIDFromToken token = inr (-42).
Proof.
  destruct (GenerateJWT_VerifyJWT_roundtrip (H0 := ReferenceFacts.wire_laws)
              (Reference.bytes_of_string "secret") (-42)
              1500000000 3000000000 3999999999)
    as (tokenString & Hgen & Hfresh & _).
  - unfold Strconv.is_int, Strconv.MinInt, Strconv.MaxInt. lia.
  - destruct Hfresh as (token & Hver & Hid); [vm_compute; reflexivity |].
    exists tokenString, token. auto.
Defined.

End AuthFacts.

(** ** Rejected tokens: wrong key, wrong algorithm, expiry *)

Module VerifyFacts.
Import Http Handlers Auth AuthFacts.

Section Rejections.
Context `{Jwt.Wire}.

(** A token in order (HS256, signed with the verification secret) is
    accepted or refused by the validator alone. *)
Lemma VerifyJWT_authentic (now : Z) (jwtString : string) (secretKey : list byte)
      (c : Jwt.MapClaims) (sstr : string) :
  Jwt.Segments jwtString
    = Some (Some "HS256", c, sstr, Jwt.hmac Jwt.SHA256 secretKey sstr) ->
  VerifyJWT now jwtString secretKey =
    match Jwt.Validate now c with
    | Some err => inl err
    | None =>
        inr {| Jwt.Raw := jwtString; Jwt.Method := Jwt.SigningMethodHS256;
               Jwt.Header := Some "HS256"; Jwt.Claims := c;
               Jwt.Signature := Jwt.hmac Jwt.SHA256 secretKey sstr;
               Jwt.Valid := true |}
    end.
Proof.
  intros Hseg. rewrite (VerifyJWT_HS256 now jwtString secretKey c sstr _ Hseg).
  by rewrite decide_True.
Qed.

Lemma Validate_expired (now e : Z) (c : Jwt.MapClaims) :
  Jwt.exp c = Some e -> e <= now -> Jwt.Validate now c = Some Jwt.ErrTokenExpired.
Proof.
  intros Hexp Hle. unfold Jwt.Validate. rewrite Hexp.
  destruct (Z.ltb_spec now e); [lia | reflexivity].
Qed.

(** Whatever else holds of it, a token whose expiry is not after the
    instant of verification is not accepted. *)
Lemma expired_token_rejected (now : Z) (jwtString : string) (secretKey : list byte)
      (h : Jwt.JoseHeader) (c : Jwt.MapClaims) (sstr : string) (sig : list byte)
      (e : Z) :
  Jwt.Segments jwtString = Some (h, c, sstr, sig) ->
  Jwt.exp c = Some e -> e <= now ->
  exists err, VerifyJWT now jwtString secretKey = inl err.
Proof.
  intros Hseg Hexp Hle.
  destruct (decide (h = Some "HS256")) as [-> | Hother].
  - rewrite (VerifyJWT_HS256 now jwtString secretKey c sstr sig Hseg).
    destruct (decide _); [| eauto].
    rewrite (Validate_expired now e c Hexp Hle). eauto.
  - destruct (VerifyJWT_other_alg now jwtString secretKey h c sstr sig Hseg Hother)
      as [-> | ->]; eauto.
Qed.

(** C5.  For every token whose expiry claim is less than or equal to the
    instant of verification, [VerifyJWT] fails; when the token is
    otherwise in order (HS256, signed with the verification secret), the
    failure is the expiry error.  The comparison is strict: a token whose
    expiry equals the instant of verification is expired. *)
Theorem VerifyJWT_expired (now : Z) (jwtString : string) (secretKey : list byte)
        (h : Jwt.JoseHeader) (c : Jwt.MapClaims) (sstr : string) (sig : list byte)
        (e : Z) :
  Jwt.Segments jwtString = Some (h, c, sstr, sig) ->
  Jwt.exp c = Some e ->
  e <= now ->
  (exists err, VerifyJWT now jwtString secretKey = inl err) /\
  (h = Some "HS256" -> sig = Jwt.hmac Jwt.SHA256 secretKey sstr ->
   VerifyJWT now jwtString secretKey = inl Jwt.ErrTokenExpired).
Proof.
  intros Hseg Hexp Hle. split.
  - by eapply expired_token_rejected.
  - intros -> ->.
    rewrite (VerifyJWT_authentic now jwtString secretKey c sstr Hseg).
    by rewrite (Validate_expired now e c Hexp Hle).
Qed.

(** [crypto/hmac] reads a key of at most one block through the block
    it is copied into: keys that fill the block alike give every message
    the same tag, whatever the hash function. *)
Lemma hmac_block (h : Jwt.HashAlg) (k1 k2 : list byte) (m : string) :
  (length k1 <= Jwt.BlockSize h)%nat ->
  (length k2 <= Jwt.BlockSize h)%nat ->
  Jwt.block (Jwt.BlockSize h) k1 = Jwt.block (Jwt.BlockSize h) k2 ->
  Jwt.hmac h k1 m = Jwt.hmac h k2 m.
Proof.
  intros Hk1 Hk2 Hblock. unfold Jwt.hmac.
  destruct (Nat.ltb_spec (Jwt.BlockSize h) (length k1)); [lia |].
  destruct (Nat.ltb_spec (Jwt.BlockSize h) (length k2)); [lia |].
  by rewrite Hblock.
Qed.

(** The block is zeroed before the key is copied in, so a zero byte at
    the end of a key that leaves room for it changes nothing. *)
Lemma block_trailing_zero (blocksize : nat) (key : list byte) :
  (length key < blocksize)%nat ->
  Jwt.block blocksize (key ++ [x00]) = Jwt.block blocksize key.
Proof.
  intros Hlen. unfold Jwt.block.
  rewrite <- (assoc_L (++)). cbn [app].
  rewrite !take_app_ge by lia.
  f_equal. change (x00 :: replicate blocksize x00) with (replicate (S blocksize) x00).
  rewrite !take_replicate. f_equal. lia.
Qed.

Lemma hmac_trailing_zero (h : Jwt.HashAlg) (key : list byte) (m : string) :
  (length key < Jwt.BlockSize h)%nat ->
  Jwt.hmac h (key ++ [x00]) m = Jwt.hmac h key m.
Proof.
  intros Hlen. apply hmac_block.
  - rewrite length_app. cbn [length]. lia.
  - lia.
  - by apply block_trailing_zero.
Qed.

(** [VerifyJWT] looks at the secret only through the tag it gives the
    token's signing string. *)
Lemma VerifyJWT_same_tag (now : Z) (jwtString : string) (k1 k2 : list byte)
      (c : Jwt.MapClaims) (sstr : string) (sig : list byte) :
  Jwt.Segments jwtString = Some (Some "HS256", c, sstr, sig) ->
  Jwt.hmac Jwt.SHA256 k1 sstr = Jwt.hmac Jwt.SHA256 k2 sstr ->
  VerifyJWT now jwtString k1 = VerifyJWT now jwtString k2.
Proof.
  intros Hseg Htag.
  rewrite (VerifyJWT_HS256 now jwtString k1 c sstr sig Hseg).
  rewrite (VerifyJWT_HS256 now jwtString k2 c sstr sig Hseg).
  by rewrite Htag.
Qed.

(** C4, as amended.  Verification fails for a token whose header names
    any algorithm other than HS256 (["none"] included), whatever its
    claims and signature.  A token signed with another secret fails with
    the signature error whenever the HS256 tag of its signing string
    under the verification secret is not the tag it carries; when the
    two secrets give that string one tag, it is verified as under the
    secret it was signed with, and this is so of any two secrets of at
    most 64 bytes that fill the zero-padded block alike. *)
Theorem VerifyJWT_rejects_other_key_and_other_alg
        (now : Z) (secretKey signingKey : list byte)
        (signed : string) (c1 : Jwt.MapClaims) (sstr1 : string)
        (other : string) (h2 : Jwt.JoseHeader) (c2 : Jwt.MapClaims)
        (sstr2 : string) (sig2 : list byte) :
  Jwt.Segments signed
    = Some (Some "HS256", c1, sstr1, Jwt.hmac Jwt.SHA256 signingKey sstr1) ->
  Jwt.Segments other = Some (h2, c2, sstr2, sig2) ->
  h2 <> Some "HS256" ->
  (Jwt.hmac Jwt.SHA256 signingKey sstr1 <> Jwt.hmac Jwt.SHA256 secretKey sstr1 ->
   VerifyJWT now signed secretKey = inl Jwt.ErrTokenSignatureInvalid) /\
  (Jwt.hmac Jwt.SHA256 signingKey sstr1 = Jwt.hmac Jwt.SHA256 secretKey sstr1 ->
   VerifyJWT now signed secretKey = VerifyJWT now signed signingKey) /\
  ((length signingKey <= 64)%nat -> (length secretKey <= 64)%nat ->
   Jwt.block 64 signingKey = Jwt.block 64 secretKey ->
   VerifyJWT now signed secretKey = VerifyJWT now signed signingKey) /\
  (exists err, VerifyJWT now other secretKey = inl err).
Proof.
  intros Hseg1 Hseg2 Halg. repeat split.
  - intros Htag.
    rewrite (VerifyJWT_HS256 now signed secretKey c1 sstr1 _ Hseg1).
    by rewrite decide_False.
  - intros Htag. symmetry. by eapply VerifyJWT_same_tag.
  - intros Hk1 Hk2 Hblock. symmetry.
    eapply VerifyJWT_same_tag; [exact Hseg1 |].
    by apply (hmac_block Jwt.SHA256).
  - destruct (VerifyJWT_other_alg now other secretKey h2 c2 sstr2 sig2 Hseg2 Halg)
      as [-> | ->]; eauto.
Qed.

End Rejections.

(** An issued token, presented once its expiry has been reached. *)
Lemma GenerateJWT_then_expired `{Jwt.WireLaws}
      (secretKey : list byte) (subject issuedAt expiresAt now : Z)
      (tokenString : string) :
  GenerateJWT issuedAt secretKey expiresAt subject = inr tokenString ->
  Jwt.NewNumericDate (issuedAt + expiresAt) <= now ->
  VerifyJWT now tokenString secretKey = inl Jwt.ErrTokenExpired.
Proof.
  rewrite GenerateJWT_eq. cbv zeta. intros [= <-] Hle.
  rewrite (VerifyJWT_authentic now _ secretKey _ _ (Jwt.Segments_Compact _ _ _)).
  by erewrite Validate_expired.
Qed.

(** Whole seconds only: a lifetime shorter than what is left of the
    current second yields a token that is expired when issued. *)
Example GenerateJWT_subsecond `{Jwt.WireLaws} (secretKey : list byte) (tokenString : string) :
  GenerateJWT 1500000000 secretKey 400000000 7 = inr tokenString ->
  VerifyJWT 1500000000 tokenString secretKey = inl Jwt.ErrTokenExpired.
Proof.
  intros Hgen. eapply GenerateJWT_then_expired; [exact Hgen |].
  vm_compute. discriminate.
Qed.

(** A token issued half a second into a second for a lifetime of 400
    milliseconds has an expiry strictly after the instant of issue, yet
    verifying it at that very instant, with the secret it was issued
    under, fails: its [exp] claim is the start of the second. *)
Lemma strictly_future_expiry_rejected :
  1500000000 < 1500000000 + 400000000 /\
  exists tokenString,
    GenerateJWT (H := Reference.wire)
      1500000000 (Reference.bytes_of_string "secret") 400000000 7
    = inr tokenString /\
    VerifyJWT (H := Reference.wire)
      1500000000 tokenString (Reference.bytes_of_string "secret")
    = inl Jwt.ErrTokenExpired.
Proof.
  split; [lia |].
  destruct (GenerateJWT _ _ _ _) as [err | tokenString] eqn:Hgen;
    vm_compute in Hgen; [discriminate |].
  injection Hgen as <-. eexists _. split; [reflexivity |].
  vm_compute. reflexivity.
Qed.

Lemma VerifyJWT_expired_witness :
  VerifyJWT (H := Reference.wire) 5000000000
    (Reference.tokenFor "HS256" Reference.expiredClaims (Reference.bytes_of_string "secret"))
    (Reference.bytes_of_string "secret")
  = inl Jwt.ErrTokenExpired.
Proof.
  refine (proj2 (VerifyJWT_expired (H := Reference.wire) 5000000000 _
                   (Reference.bytes_of_string "secret")
                   (Some "HS256") Reference.expiredClaims _ _ 5000000000 _ _ _) _ _).
  - apply (Jwt.Segments_Compact (WireLaws := ReferenceFacts.wire_laws)).
  - reflexivity.
  - lia.
  - reflexivity.
  - reflexivity.
Defined.

Lemma VerifyJWT_rejects_other_key_and_other_alg_witness :
  VerifyJWT (H := Reference.wire) 0
    (Reference.tokenFor "HS256" Reference.expiredClaims (Reference.bytes_of_string "other"))
    (Reference.bytes_of_string "secret")
  = inl Jwt.ErrTokenSignatureInvalid /\
  (exists err,
      VerifyJWT (H := Reference.wire) 0
        (Reference.tokenFor "none" Reference.expiredClaims [])
        (Reference.bytes_of_string "secret")
      = inl err).
Proof.
  destruct (VerifyJWT_rejects_other_key_and_other_alg (H := Reference.wire) 0
              (Reference.bytes_of_string "secret") (Reference.bytes_of_string "other")
              (Reference.tokenFor "HS256" Reference.expiredClaims
                 (Reference.bytes_of_string "other"))
              Reference.expiredClaims
              (Jwt.SigningString (Wire := Reference.wire)
                 (Some "HS256") Reference.expiredClaims)
              (Reference.tokenFor "none" Reference.expiredClaims [])
              (Some "none") Reference.expiredClaims
              (Jwt.SigningString (Wire := Reference.wire)
                 (Some "none") Reference.expiredClaims)
              (Jwt.hmac (H := Reference.wire) Jwt.SHA256 []
                 (Jwt.SigningString (Wire := Reference.wire)
                    (Some "none") Reference.expiredClaims)))
    as (Hdiffer & _ & _ & Hother).
  - apply (Jwt.Segments_Compact (WireLaws := ReferenceFacts.wire_laws)).
  - apply (Jwt.Segments_Compact (WireLaws := ReferenceFacts.wire_laws)).
  - discriminate.
  - split; [apply Hdiffer; vm_compute; discriminate | exact Hother].
Defined.

(** A secret and the same secret followed by a zero byte are different
    secrets, and a token issued under the first is accepted under the
    second, with its subject: the two fill the 64-byte block alike
    ([hmac_trailing_zero]). *)
Lemma VerifyJWT_accepts_zero_padded_secret :
  Reference.bytes_of_string "secret"
  <> (Reference.bytes_of_string "secret" ++ [x00])%list /\
  exists tokenString token,
    GenerateJWT (H := Reference.wire)
      1500000000 (Reference.bytes_of_string "secret") 3000000000 7
    = inr tokenString /\
    VerifyJWT (H := Reference.wire)
      3999999999 tokenString (Reference.bytes_of_string "secret" ++ [x00])%list
    = inr token /\
    getIDFromToken token = inr 7.
Proof.
  split; [discriminate |].
  destruct (GenerateJWT _ _ _ _) as [err | tokenString] eqn:Hgen;
    vm_compute in Hgen; [discriminate |].
  injection Hgen as <-. eexists _, _. split; [reflexivity |].
  destruct (VerifyJWT _ _ _) as [err | token] eqn:Hver;
    vm_compute in Hver; [discriminate |].
  injection Hver as <-. split; [reflexivity |].
  vm_compute. reflexivity.
Qed.

End VerifyFacts.

(** ** The authentication gate *)

Module GateFacts.
Import Http Handlers Auth GateSpec.

Section Gate.
Context `{Jwt.Wire} {R St : Type}.

Lemma unauthorized_status (text : ErrorText) (w : ResponseWriter (Document R)) :
  wroteHeader w = false -> status (unauthorized text w) = StatusUnauthorized.
Proof.
  intros Hw. unfold unauthorized. rewrite HttpFacts.Encode_status.
  by apply HttpFacts.WriteHeader_status.
Qed.

Lemma unauthorized_body (text : ErrorText) (w : ResponseWriter (Document R)) :
  body (unauthorized text w) = (body w ++ [ErrorDocument {| Message := text |}])%list.
Proof.
  unfold unauthorized, Encode. rewrite HttpFacts.WriteHeader_idem.
  cbn [body]. unfold WriteHeader. by destruct (wroteHeader w).
Qed.

(** [getIDFromToken] is step (3) of the gate. *)
Lemma getIDFromToken_cases (token : Jwt.Token) :
  getIDFromToken token =
    match Jwt.sub (Jwt.Claims token) with
    | Jwt.ClaimString subject =>
        if decide (subject = "") then inl ErrMissingSubject
        else
          match Strconv.Atoi subject with
          | inl _ => inl ErrNonIntegerSubject
          | inr id => inr id
          end
    | _ => inl ErrMissingSubject
    end.
Proof.
  unfold getIDFromToken, Jwt.GetSubject.
  destruct (Jwt.sub (Jwt.Claims token)) as [| subject |]; try reflexivity.
  rewrite bool_decide_eq_false_2 by (intros Hne; by apply Hne). cbn [orb].
  destruct (decide (subject = "")) as [-> | Hne]; [reflexivity |].
  by rewrite bool_decide_eq_false_2.
Qed.

(** The middleware follows the gate's decision. *)
Lemma AuthenticationMiddleware_decision
      (endpointHandler : HandlerFunc (Document R) St)
      (secretKey : list byte) (now : Z)
      (w : ResponseWriter (Document R)) (r : Request) (st : St) :
  Headers r !! "Token" <> Some [] ->
  AuthenticationMiddleware endpointHandler secretKey now w r st =
    match decide_request secretKey now r with
    | Accept id =>
        endpointHandler w
          (withHeaders r (Add "Subject" (Strconv.Itoa id) (Headers r))) st
    | MissingToken => Returned (unauthorized (HandlersText ErrMissingToken) w, st)
    | InvalidToken err => Returned (unauthorized (JwtText err) w, st)
    | MissingSubject => Returned (unauthorized (HandlersText ErrMissingSubject) w, st)
    | NonIntegerSubject =>
        Returned (unauthorized (HandlersText ErrNonIntegerSubject) w, st)
    end.
Proof.
  intros Hwf. unfold decide_request, AuthenticationMiddleware.
  destruct (Headers r !! "Token") as [[| jwtString rest] |] eqn:Htoken;
    cbn [mbind option_bind head]; [congruence | | reflexivity].
  destruct (VerifyJWT now jwtString secretKey) as [err | token]; [reflexivity |].
  rewrite getIDFromToken_cases.
  destruct (Jwt.sub (Jwt.Claims token)) as [| subject |]; try reflexivity.
  destruct (decide (subject = "")); [reflexivity |].
  destruct (Strconv.Atoi subject); reflexivity.
Qed.

(** A request the gate accepts carries a token, so nothing need be
    assumed of its header map. *)
Lemma AuthenticationMiddleware_accept
      (endpointHandler : HandlerFunc (Document R) St)
      (secretKey : list byte) (now : Z)
      (w : ResponseWriter (Document R)) (r : Request) (st : St) (id : Z) :
  decide_request secretKey now r = Accept id ->
  AuthenticationMiddleware endpointHandler secretKey now w r st
  = endpointHandler w
      (withHeaders r (Add "Subject" (Strconv.Itoa id) (Headers r))) st.
Proof.
  intros Hacc. rewrite AuthenticationMiddleware_decision.
  - by rewrite Hacc.
  - intros Hempty. unfold decide_request in Hacc.
    rewrite Hempty in Hacc. discriminate.
Qed.

(** The id of an accepted request came out of [Atoi]. *)
Lemma Accept_is_int (secretKey : list byte) (now : Z) (r : Request) (id : Z) :
  decide_request secretKey now r = Accept id -> Strconv.is_int id.
Proof.
  unfold decide_request.
  destruct (Headers r !! "Token" ≫= head) as [t |]; [| discriminate].
  destruct (VerifyJWT now t secretKey) as [err | token]; [discriminate |].
  destruct (Jwt.sub (Jwt.Claims token)) as [| subject |]; try discriminate.
  destruct (decide (subject = "")) as [| Hfull]; [discriminate |].
  destruct (Strconv.Atoi subject) as [e | parsed] eqn:Hatoi; [discriminate |].
  intros [= <-]. by eapply StrconvFacts.Atoi_is_int.
Qed.

(** C3, as amended.  On every inbound request the middleware does what
    the gate decides: in the four failing cases (no token field;
    verification failure, with the verifier's own message; subject
    absent, empty or not a JSON string; subject not an integer) it
    answers 401 with that case's message, leaves the state alone and
    does not run the downstream handler; otherwise it hands over to the
    downstream handler with a request whose method and body are the
    inbound ones, whose other headers are the inbound ones, and whose
    [Subject] values are the inbound ones followed by the decimal text
    of the parsed subject id, from which [Atoi] gives the id back. *)
Theorem AuthenticationMiddleware_gate
        (endpointHandler : HandlerFunc (Document R) St)
        (secretKey : list byte) (now : Z)
        (w : ResponseWriter (Document R)) (r : Request) (st : St) :
  Headers r !! "Token" <> Some [] ->
  wroteHeader w = false ->
  match decide_request secretKey now r with
  | Accept id =>
      exists r',
        AuthenticationMiddleware endpointHandler secretKey now w r st
        = endpointHandler w r' st /\
        Method r' = Method r /\
        Body r' = Body r /\
        Headers r' !! "Subject"
        = Some (default [] (Headers r !! "Subject") ++ [Strconv.Itoa id])%list /\
        (forall key, key <> "Subject" -> Headers r' !! key = Headers r !! key) /\
        Strconv.Atoi (Strconv.Itoa id) = inr id
  | d =>
      exists text,
        rejection d = Some text /\
        AuthenticationMiddleware endpointHandler secretKey now w r st
        = Returned (unauthorized text w, st) /\
        status (unauthorized text w) = StatusUnauthorized /\
        body (unauthorized text w)
        = (body w ++ [ErrorDocument {| Message := text |}])%list
  end.
Proof.
  intros Hwf Hfresh.
  rewrite (AuthenticationMiddleware_decision _ _ _ _ _ _ Hwf).
  destruct (decide_request secretKey now r) as [| err | | | id] eqn:Hd;
    try (eexists; split; [reflexivity |];
         split; [reflexivity |];
         split; [by apply unauthorized_status | apply unauthorized_body]).
  exists (withHeaders r (Add "Subject" (Strconv.Itoa id) (Headers r))).
  cbn [Method Body Headers withHeaders].
  repeat split.
  - apply HttpFacts.Add_lookup.
  - intros key Hkey. by apply HttpFacts.Add_lookup_ne.
  - apply StrconvFacts.Atoi_FormatInt. by eapply Accept_is_int.
Qed.

(** What the downstream handler then reads under [Subject], when the
    request did not bring such a header of its own. *)
Lemma downstream_subject (r : Request) (id : Z) :
  Headers r !! "Subject" = None ->
  Headers (withHeaders r (Add "Subject" (Strconv.Itoa id) (Headers r))) !! "Subject"
  = Some [Strconv.Itoa id].
Proof.
  intros Hnone. cbn [Headers withHeaders].
  rewrite HttpFacts.Add_lookup, Hnone. reflexivity.
Qed.

End Gate.

(** Without a token the downstream handler, here one that would panic,
    is not run. *)
Example no_token_no_downstream :
  AuthenticationMiddleware (H := Reference.wire) (R := unit) (St := unit)
    (fun w _ st => Panicked "downstream" (w, st))
    (Reference.bytes_of_string "secret") 0 NewRecorder Reference.noToken ()
  = Returned (unauthorized (HandlersText ErrMissingToken) NewRecorder, ()).
Proof. vm_compute. reflexivity. Qed.

End GateFacts.

(** ** The customer handlers *)

Module ServerFacts.
Import Http Handlers Models Validation CustomerServer.

Section Server.
Context `{Jwt.Wire} `{Govalidator} {S : Type} `{CustomerStore S}.

Lemma respond_status (code : Z) (text : ErrorText) (w : ResponseWriter Doc) :
  wroteHeader w = false -> status (respond code text w) = code.
Proof.
  intros Hw. unfold respond. rewrite HttpFacts.Encode_status.
  by apply HttpFacts.WriteHeader_status.
Qed.

(** The writer after [w.WriteHeader(202); w.Header().Add("Token", t)]:
    the status is 202 and the handler's header map holds the token, but
    the headers committed with the status line are those of before. *)
Lemma accepted_writer (t : string) (w : ResponseWriter Doc) :
  wroteHeader w = false ->
  let w' := HeaderAdd "Token" t (WriteHeader StatusAccepted w) in
  status w' = StatusAccepted /\
  header w' !! "Token" = Some (default [] (header w !! "Token") ++ [t])%list /\
  sentHeader w' = header w.
Proof.
  intros Hw. cbv zeta. unfold HeaderAdd, WriteHeader. rewrite Hw.
  cbn [status header sentHeader]. split; [reflexivity |].
  split; [apply HttpFacts.Add_lookup | reflexivity].
Qed.

(** *** Validation failures *)

Lemma storeCustomer_invalid (c : CustomerServer) (w : ResponseWriter Doc)
      (r : Request) (env : Env S) (err : ValidationError) :
  ValidateRequest (Req := CreateCustomerRequest) (Body r) = inl err ->
  storeCustomer c w r env
  = Returned (respond StatusBadRequest (ValidationText err) w, env).
Proof. intros Hv. unfold storeCustomer. by rewrite Hv. Qed.

Lemma updateCustomer_invalid (c : CustomerServer) (w : ResponseWriter Doc)
      (r : Request) (env : Env S) (err : ValidationError)
      (subject : string) (rest : list string) :
  ValidateRequest (Req := UpdateCustomerRequest) (Body r) = inl err ->
  Headers r !! "Subject" = Some (subject :: rest) ->
  updateCustomer c w r env
  = Returned (respond StatusBadRequest (ValidationText err) w,
              logged env (store env)
                     (CallGetCustomerById (orZero (Strconv.Atoi subject)))).
Proof.
  intros Hv Hs. unfold updateCustomer. rewrite Hs.
  unfold getCustomerById. by rewrite Hv.
Qed.

(** C6, as amended.  A create or update request whose payload fails
    validation is answered 400 and leaves the store as it was, with no
    write made on it.  On create-customer the store is not touched at
    all.  On update-customer one read, [GetCustomerById] for the id the
    handler takes from the first [Subject] value, has been made by the
    time validation runs, and nothing after it. *)
Theorem rejected_request_leaves_store (c : CustomerServer) (w : ResponseWriter Doc) :
  wroteHeader w = false ->
  (forall (r : Request) (env : Env S) (err : ValidationError),
      ValidateRequest (Req := CreateCustomerRequest) (Body r) = inl err ->
      exists w',
        storeCustomer c w r env = Returned (w', env) /\
        status w' = StatusBadRequest) /\
  (forall (r : Request) (env : Env S) (err : ValidationError)
          (subject : string) (rest : list string),
      ValidateRequest (Req := UpdateCustomerRequest) (Body r) = inl err ->
      Headers r !! "Subject" = Some (subject :: rest) ->
      exists w' env',
        updateCustomer c w r env = Returned (w', env') /\
        status w' = StatusBadRequest /\
        store env' = store env /\
        calls env'
        = (calls env ++ [CallGetCustomerById (orZero (Strconv.Atoi subject))])%list /\
        forallb (fun call => negb (is_write call))
                [CallGetCustomerById (orZero (Strconv.Atoi subject))] = true).
Proof.
  intros Hw. split.
  - intros r env err Hv.
    eexists. split; [by apply storeCustomer_invalid |].
    by apply respond_status.
  - intros r env err subject rest Hv Hs.
    eexists. eexists. split; [by eapply updateCustomer_invalid |].
    split; [by apply respond_status |]. by cbn.
Qed.

(** *** A subject without a customer record *)

Lemma updateCustomer_missing (c : CustomerServer) (w : ResponseWriter Doc)
      (r : Request) (env : Env S) (q : UpdateCustomerRequest)
      (subject : string) (rest : list string) :
  Headers r !! "Subject" = Some (subject :: rest) ->
  GetCustomerById (store env) (orZero (Strconv.Atoi subject)) = None ->
  ValidateRequest (Req := UpdateCustomerRequest) (Body r) = inr q ->
  updateCustomer c w r env
  = Panicked "nil pointer dereference"
             (w, logged env (store env)
                        (CallGetCustomerById (orZero (Strconv.Atoi subject)))).
Proof.
  intros Hs Hnone Hv. unfold updateCustomer. rewrite Hs.
  unfold getCustomerById. by rewrite Hv, Hnone.
Qed.

Lemma getCustomer_missing (c : CustomerServer) (w : ResponseWriter Doc)
      (r : Request) (env : Env S) (subject : string) (rest : list string) :
  Headers r !! "Subject" = Some (subject :: rest) ->
  GetCustomerById (store env) (orZero (Strconv.Atoi subject)) = None ->
  getCustomer c w r env
  = Returned (respond StatusNotFound (HandlersText ErrMissingCustomer) w,
              logged env (store env)
                     (CallGetCustomerById (orZero (Strconv.Atoi subject)))).
Proof.
  intros Hs Hnone. unfold getCustomer. rewrite Hs.
  unfold getCustomerById. by rewrite Hnone.
Qed.

(** *** Accepted creations and logins *)

Lemma storeCustomer_accepted (c : CustomerServer) (w : ResponseWriter Doc)
      (r : Request) (env : Env S) (q : CreateCustomerRequest) :
  ValidateRequest (Req := CreateCustomerRequest) (Body r) = inr q ->
  GetCustomerByEmail (store env) (create_Email q) = None ->
  exists (customerId : Z) (env' : Env S),
    storeCustomer c w r env
    = Returned (HeaderAdd "Token"
                  (orEmpty (GenerateJWT (secretKey c) (expiresAt c) customerId))
                  (WriteHeader StatusAccepted w), env').
Proof.
  intros Hv Hfree. unfold storeCustomer. rewrite Hv.
  unfold getCustomerByEmail. rewrite Hfree.
  unfold Models.storeCustomer, logged. cbn [store calls].
  destruct (StoreCustomer (store env) (getCustomerFromCreateCustomerRequest q))
    as [customerId s].
  eexists. eexists. reflexivity.
Qed.

Lemma LoginHandler_accepted (c : CustomerServer) (w : ResponseWriter Doc)
      (r : Request) (env : Env S) (q : LoginCustomerRequest) (customer : Customer) :
  ValidateRequest (Req := LoginCustomerRequest) (Body r) = inr q ->
  GetCustomerByEmail (store env) (login_Email q) = Some customer ->
  Models.Password customer = login_Password q ->
  exists env' : Env S,
    LoginHandler c w r env
    = Returned (HeaderAdd "Token"
                  (orEmpty (GenerateJWT (secretKey c) (expiresAt c)
                                        (Models.Id customer)))
                  (WriteHeader StatusAccepted w), env').
Proof.
  intros Hv Hfound Hpw. unfold LoginHandler. rewrite Hv.
  unfold getCustomerByEmail. rewrite Hfound, Hpw, String.eqb_refl.
  cbn [negb]. eauto.
Qed.

(** *** The response to GET and the stored password *)

(** C9.  Two customer records that differ only in their [Password] give
    the same [GetCustomerResponse], and so the same answer to
    [GET /customer/]: the password is not copied into the response. *)
Theorem getCustomer_independent_of_password
        (c : CustomerServer) (w : ResponseWriter Doc) (r : Request)
        (env1 env2 : Env S) (subject : string) (rest : list string)
        (customer1 customer2 : Customer) :
  Headers r !! "Subject" = Some (subject :: rest) ->
  GetCustomerById (store env1) (orZero (Strconv.Atoi subject)) = Some customer1 ->
  GetCustomerById (store env2) (orZero (Strconv.Atoi subject)) = Some customer2 ->
  Models.Id customer1 = Models.Id customer2 ->
  Models.FirstName customer1 = Models.FirstName customer2 ->
  Models.LastName customer1 = Models.LastName customer2 ->
  Models.PhoneNumber customer1 = Models.PhoneNumber customer2 ->
  Models.Email customer1 = Models.Email customer2 ->
  newGetCustomerResponse customer1 = newGetCustomerResponse customer2 /\
  CustomerTypes.CustomerToGetCustomerResponse customer1
  = CustomerTypes.CustomerToGetCustomerResponse customer2 /\
  (state_of (getCustomer c w r env1)).1 = (state_of (getCustomer c w r env2)).1.
Proof.
  intros Hs Hc1 Hc2 Hid Hfn Hln Hpn Hem.
  assert (newGetCustomerResponse customer1 = newGetCustomerResponse customer2)
    as Hresp by (unfold newGetCustomerResponse; congruence).
  split; [exact Hresp |]. split.
  - unfold CustomerTypes.CustomerToGetCustomerResponse. congruence.
  - unfold getCustomer. rewrite Hs. unfold getCustomerById.
    rewrite Hc1, Hc2. cbn [state_of fst]. by rewrite Hresp.
Qed.

End Server.

(** C10.  The response [CustomerToGetCustomerResponse] builds has [Id] 0
    whatever the customer's id: the type declares the field and the
    conversion never sets it, so the response is the same for every id
    the customer record might carry. *)
Theorem CustomerToGetCustomerResponse_Id_zero (customer : Customer) :
  CustomerTypes.Id (CustomerTypes.CustomerToGetCustomerResponse customer) = 0 /\
  forall id : Z,
    CustomerTypes.CustomerToGetCustomerResponse
      {| Models.Id := id;
         Models.FirstName := Models.FirstName customer;
         Models.LastName := Models.LastName customer;
         Models.PhoneNumber := Models.PhoneNumber customer;
         Models.Email := Models.Email customer;
         Models.Password := Models.Password customer |}
    = CustomerTypes.CustomerToGetCustomerResponse customer.
Proof.
  split.
  - reflexivity.
  - intros id. destruct customer; reflexivity.
Qed.

Example Alice_response_Id :
  CustomerTypes.Id (CustomerTypes.CustomerToGetCustomerResponse Reference.Alice) = 0
  /\ Models.Id Reference.Alice = 2.
Proof. split; reflexivity. Qed.

End ServerFacts.

(** ** The model run on the requests of the tests *)

Module Examples.
Import Http Handlers Models Validation CustomerServer Reference.

(** *** The gate's five cases *)

Example gate_missing_token :
  GateSpec.decide_request (secretKey server) now0 noToken = GateSpec.MissingToken.
Proof. vm_compute. reflexivity. Qed.

Example gate_invalid_token :
  GateSpec.decide_request (secretKey server) now0
    (withToken "GET" "thisIsAnInvalidJWT" None)
  = GateSpec.InvalidToken Jwt.ErrTokenMalformed.
Proof. vm_compute. reflexivity. Qed.

Example gate_missing_subject :
  GateSpec.decide_request (secretKey server) now0
    (withToken "GET" tokenWithoutSubject None)
  = GateSpec.MissingSubject.
Proof. vm_compute. reflexivity. Qed.

Example gate_text_subject :
  GateSpec.decide_request (secretKey server) now0
    (withToken "GET" tokenWithTextSubject None)
  = GateSpec.NonIntegerSubject.
Proof. vm_compute. reflexivity. Qed.

Example gate_accepts_Alice :
  GateSpec.decide_request (secretKey server) now0 (withToken "GET" (tokenOf 2) None)
  = GateSpec.Accept 2.
Proof. vm_compute. reflexivity. Qed.

Example get_Alice :
  (state_of (CustomerHandler server now0 NewRecorder
               (withToken "GET" (tokenOf 2) None) env0)).1
  = Encode (ValueDocument (newGetCustomerResponse Alice)) NewRecorder.
Proof. vm_compute. reflexivity. Qed.

(** Alice's token opens the gate: her request reaches [getCustomer] with
    her id under [Subject]. *)
Lemma AuthenticationMiddleware_gate_witness :
  exists r',
    Auth.AuthenticationMiddleware (getCustomer server) (secretKey server) now0
      NewRecorder (withToken "GET" (tokenOf 2) None) env0
    = getCustomer server NewRecorder r' env0 /\
    Method r' = "GET" /\
    Body r' = None /\
    Headers r' !! "Subject" = Some ["2"] /\
    (forall key, key <> "Subject" ->
                 Headers r' !! key
                 = Headers (withToken "GET" (tokenOf 2) None) !! key) /\
    Strconv.Atoi "2" = inr 2.
Proof.
  pose proof (GateFacts.AuthenticationMiddleware_gate
                (getCustomer server) (secretKey server) now0
                NewRecorder (withToken "GET" (tokenOf 2) None) env0) as Hgate.
  replace (GateSpec.decide_request (secretKey server) now0
             (withToken "GET" (tokenOf 2) None))
    with (GateSpec.Accept 2) in Hgate by (vm_compute; reflexivity).
  apply Hgate; [vm_compute; discriminate | reflexivity].
Defined.

(** The claim C3 makes, that the gate answers [MissingSubject] exactly
    when the verified token's subject is absent or empty, fails on a
    token whose [sub] entry is a JSON value other than a string: the
    token verifies, its subject is neither absent nor the empty string,
    and the request is answered 401 with [ErrMissingSubject]. *)
Lemma present_subject_answered_missing :
  exists token,
    Auth.VerifyJWT now0 tokenWithNumberSubject (secretKey server) = inr token /\
    Jwt.sub (Jwt.Claims token) <> Jwt.ClaimAbsent /\
    Jwt.sub (Jwt.Claims token) <> Jwt.ClaimString "" /\
    Auth.AuthenticationMiddleware (getCustomer server) (secretKey server) now0
      NewRecorder (withToken "GET" tokenWithNumberSubject None) env0
    = Returned (Auth.unauthorized (HandlersText ErrMissingSubject) NewRecorder, env0).
Proof.
  destruct (Auth.VerifyJWT _ _ _) as [err | token] eqn:Hver;
    vm_compute in Hver; [discriminate |].
  injection Hver as <-. eexists _. split; [reflexivity |].
  split; [discriminate |]. split; [discriminate |].
  vm_compute. reflexivity.
Qed.

(** *** Validation *)

Example badPhone_rejected :
  ValidateRequest (Req := CreateCustomerRequest) (Some badPhone)
  = inl (ErrInvalidRequestField "PhoneNumber" "phonenumber").
Proof. vm_compute. reflexivity. Qed.

Example Peter_valid :
  ValidateRequest (Req := CreateCustomerRequest) (Some (customerObject Peter))
  = inr {| create_FirstName := "Peter"; create_LastName := "Smith";
           create_PhoneNumber := "+359 88 576 5981";
           create_Email := "petesmith@gmail.com";
           create_Password := "firefirefire" |}.
Proof. vm_compute. reflexivity. Qed.

(** The claim C6 makes, that a request failing validation causes no store
    access, fails on update-customer: Peter's request with the bad
    telephone number is rejected by the validator, and the store has been
    read by then. *)
Lemma update_reads_store_before_validating :
  ~ (forall err,
        ValidateRequest (Req := UpdateCustomerRequest) (Body putBadPhone) = inl err ->
        calls (state_of (CustomerHandler server now0 NewRecorder putBadPhone env0)).2
        = calls env0).
Proof.
  intros Hclaim.
  specialize (Hclaim (ErrInvalidRequestField "PhoneNumber" "phonenumber")).
  assert (calls (state_of (CustomerHandler server now0 NewRecorder putBadPhone env0)).2
          = [CallGetCustomerById 1]) as Hcalls by (vm_compute; reflexivity).
  rewrite Hcalls in Hclaim.
  assert ([CallGetCustomerById 1] = calls env0) as Habs
      by (apply Hclaim; vm_compute; reflexivity).
  discriminate Habs.
Qed.

Lemma rejected_request_leaves_store_witness :
  (exists w',
      storeCustomer server NewRecorder postBadPhone empty0
      = Returned (w', empty0) /\
      status w' = StatusBadRequest) /\
  (exists w' env',
      updateCustomer server NewRecorder (pastGate "PUT" 1 (Some badPhone)) env0
      = Returned (w', env') /\
      status w' = StatusBadRequest /\
      store env' = store env0 /\
      calls env'
      = (calls env0 ++ [CallGetCustomerById (orZero (Strconv.Atoi (Strconv.Itoa 1)))])%list /\
      forallb (fun call => negb (is_write call))
              [CallGetCustomerById (orZero (Strconv.Atoi (Strconv.Itoa 1)))] = true).
Proof.
  destruct (ServerFacts.rejected_request_leaves_store server NewRecorder eq_refl)
    as [Hcreate Hupdate].
  split.
  - apply (Hcreate postBadPhone empty0
             (ErrInvalidRequestField "PhoneNumber" "phonenumber")).
    vm_compute. reflexivity.
  - apply (Hupdate (pastGate "PUT" 1 (Some badPhone)) env0
             (ErrInvalidRequestField "PhoneNumber" "phonenumber")
             (Strconv.Itoa 1) []).
    + vm_compute. reflexivity.
    + vm_compute. reflexivity.
Defined.

(** *** A subject without a customer record *)

(** C7.  With a valid token for subject 3, who has no record, GET and
    DELETE answer 404 with the missing-customer error, but PUT with a
    valid body panics on the nil customer: no 404, no error body. *)
Theorem update_missing_customer_panics :
  CustomerHandler server now0 NewRecorder putNobody env0
  = Panicked "nil pointer dereference"
             (NewRecorder, {| store := customers; calls := [CallGetCustomerById 3] |})
  /\
  (state_of (CustomerHandler server now0 NewRecorder
               (withToken "GET" (tokenOf 3) None) env0)).1
  = respond StatusNotFound (HandlersText ErrMissingCustomer) NewRecorder
  /\
  (state_of (CustomerHandler server now0 NewRecorder
               (withToken "DELETE" (tokenOf 3) None) env0)).1
  = respond StatusNotFound (HandlersText ErrMissingCustomer) NewRecorder.
Proof. repeat split; vm_compute; reflexivity. Qed.

(** *** Accepted creations and logins *)

(** C8.  Creating Peter in an empty store and logging Peter in are both
    answered 202, and the handler's header map ends up holding the issued
    token; but the token is added after [WriteHeader], so the headers of
    the response that is sent do not carry it. *)
Theorem accepted_response_lacks_token :
  let created :=
    (state_of (CustomerHandler server now0 NewRecorder (postCustomer Peter) empty0)).1 in
  let logged_in :=
    (state_of (LoginHandler server NewRecorder (postLogin Peter) env0)).1 in
  (status created = StatusAccepted /\
   header created !! "Token" = Some [tokenOf 1] /\
   sentHeader (finish created) !! "Token" = None) /\
  (status logged_in = StatusAccepted /\
   header logged_in !! "Token" = Some [tokenOf 1] /\
   sentHeader (finish logged_in) !! "Token" = None).
Proof. cbv zeta. repeat split; vm_compute; reflexivity. Qed.

(** *** The response to GET and the stored password *)

Lemma getCustomer_independent_of_password_witness :
  newGetCustomerResponse Peter = newGetCustomerResponse Peter' /\
  CustomerTypes.CustomerToGetCustomerResponse Peter
  = CustomerTypes.CustomerToGetCustomerResponse Peter' /\
  (state_of (getCustomer server NewRecorder (pastGate "GET" 1 None) env0)).1
  = (state_of (getCustomer server NewRecorder (pastGate "GET" 1 None)
                 {| store := [Peter'; Alice]; calls := [] |})).1.
Proof.
  apply (ServerFacts.getCustomer_independent_of_password server NewRecorder
           (pastGate "GET" 1 None) env0 {| store := [Peter'; Alice]; calls := [] |}
           (Strconv.Itoa 1) [] Peter Peter');
    vm_compute; reflexivity.
Defined.

End Examples.

(** ** Who names the subject *)

Module SubjectFacts.
Import Http Handlers Models CustomerServer Reference.

(** [Header.Add] appends, and the handlers read the first value under
    [Subject]: when the inbound request already carries a [Subject]
    header, that value, not the token's subject, is what the handler
    acts on.  Alice's token with [Subject: 1] reads Peter's record. *)
Example client_supplied_subject_wins :
  let r := {| Method := "GET";
              Headers := {[ "Token" := [tokenOf 2]; "Subject" := ["1"] ]};
              Body := None |} in
  GateSpec.decide_request (secretKey server) now0 r = GateSpec.Accept 2 /\
  (state_of (CustomerHandler server now0 NewRecorder r env0)).1
  = Encode (ValueDocument (newGetCustomerResponse Peter)) NewRecorder.
Proof. cbv zeta. split; vm_compute; reflexivity. Qed.

(** A [Subject] value beyond [int] is looked up under the bound [Atoi]
    returns beside its range error. *)
Example out_of_range_subject_is_clamped :
  CustomerHandler server now0 NewRecorder
    (Fixtures.aliceAs "GET" "9223372036854775808" None) env0
  = Returned (respond StatusNotFound (HandlersText ErrMissingCustomer) NewRecorder,
              {| store := [Peter; Alice];
                 calls := [CallGetCustomerById 9223372036854775807] |}).
Proof. vm_compute. reflexivity. Qed.

End SubjectFacts.

(** ** Ownership on the customer endpoints *)

Module OwnershipFacts.
Import Http Handlers Models CustomerServer Reference Fixtures.

(** C1.  The customer get, delete and update handlers consult no
    authorizer: they act on the record whose id is the first [Subject]
    value of the request.  Alice, authenticated by her own token as
    subject 2, sends [Subject: 1] along with it; the gate accepts her as
    2, and each of the three operations is then carried out on the
    record of customer 1, Peter, and answered with status 200 instead of
    401: his record is returned, deleted, and overwritten with another
    password. *)
Theorem forged_subject_served :
  GateSpec.decide_request (secretKey server) now0 (aliceAs "GET" "1" None)
  = GateSpec.Accept 2 /\
  Id Alice = 2 /\ Id Peter = 1 /\
  CustomerHandler server now0 NewRecorder (aliceAs "GET" "1" None) env0
  = Returned (Encode (ValueDocument (newGetCustomerResponse Peter)) NewRecorder,
              {| store := [Peter; Alice]; calls := [CallGetCustomerById 1] |}) /\
  CustomerHandler server now0 NewRecorder (aliceAs "DELETE" "1" None) env0
  = Returned (NewRecorder,
              {| store := [Alice]; calls := [CallDeleteCustomer 1] |}) /\
  CustomerHandler server now0 NewRecorder
    (aliceAs "PUT" "1" (Some (customerObject Peter'))) env0
  = Returned (NewRecorder,
              {| store := [Peter'; Alice];
                 calls := [CallGetCustomerById 1; CallUpdateCustomer Peter'] |}) /\
  status (finish (V := Doc) NewRecorder) = StatusOK.
Proof. repeat split; vm_compute; reflexivity. Qed.

End OwnershipFacts.

(** ** Issued tokens at the gate *)

Module IssueFacts.
Import Http Handlers Auth GateSpec.

Section Issued.
Context `{Jwt.WireLaws}.

(** A token string that [SignedString] made under HS256, verified with
    the key it was signed with: the validator alone decides. *)
Lemma VerifyJWT_SignedString (now : Z) (claims : Jwt.RegisteredClaims)
      (key : list byte) (t : string) :
  Jwt.SignedString Jwt.SigningMethodHS256 claims key = inr t ->
  VerifyJWT now t key =
    match Jwt.Validate now (Jwt.claimSet claims) with
    | Some err => inl err
    | None =>
        inr {| Jwt.Raw := t; Jwt.Method := Jwt.SigningMethodHS256;
               Jwt.Header := Some "HS256"; Jwt.Claims := Jwt.claimSet claims;
               Jwt.Signature :=
                 Jwt.hmac Jwt.SHA256 key
                          (Jwt.SigningString (Some "HS256") (Jwt.claimSet claims));
               Jwt.Valid := true |}
    end.
Proof.
  intros [= <-].
  apply (VerifyFacts.VerifyJWT_authentic now _ key (Jwt.claimSet claims)).
  apply Jwt.Segments_Compact.
Qed.

(** The gate's decision on a request whose first token is such a token. *)
Lemma decide_request_signed (now : Z) (claims : Jwt.RegisteredClaims)
      (key : list byte) (t : string) (rest : list string) (r : Request) :
  Jwt.SignedString Jwt.SigningMethodHS256 claims key = inr t ->
  Headers r !! "Token" = Some (t :: rest) ->
  decide_request key now r =
    match Jwt.Validate now (Jwt.claimSet claims) with
    | Some err => InvalidToken err
    | None =>
        if decide (Jwt.Subject claims = "") then MissingSubject
        else
          match Strconv.Atoi (Jwt.Subject claims) with
          | inl _ => NonIntegerSubject
          | inr id => Accept id
          end
    end.
Proof.
  intros Hsigned Htoken. unfold decide_request. rewrite Htoken.
  cbn [mbind option_bind head].
  rewrite (VerifyJWT_SignedString now claims key t Hsigned).
  destruct (Jwt.Validate now (Jwt.claimSet claims)); [reflexivity |].
  cbn [Jwt.Claims]. unfold Jwt.claimSet at 1. cbn [Jwt.sub].
  destruct (decide (Jwt.Subject claims = "")) as [Hempty | Hfull];
    [reflexivity |].
  by rewrite decide_False.
Qed.

Lemma Validate_claimSet (now : Z) (subject : string) (e : Z) :
  Jwt.Validate now (Jwt.claimSet {| Jwt.Subject := subject; Jwt.ExpiresAt := Some e |})
  = if now <? e then None else Some Jwt.ErrTokenExpired.
Proof. reflexivity. Qed.

(** A token for an integer subject, not yet expired, is accepted as that
    subject. *)
Lemma decide_request_subject (now e subject : Z) (key : list byte)
      (t : string) (rest : list string) (r : Request) :
  Jwt.SignedString Jwt.SigningMethodHS256
    {| Jwt.Subject := Strconv.FormatInt subject; Jwt.ExpiresAt := Some e |} key
  = inr t ->
  Headers r !! "Token" = Some (t :: rest) ->
  Strconv.is_int subject ->
  now < e ->
  decide_request key now r = Accept subject.
Proof.
  intros Hsigned Htoken Hint Hnow.
  rewrite (decide_request_signed now _ key t rest r Hsigned Htoken).
  rewrite Validate_claimSet. cbn [Jwt.Subject].
  destruct (Z.ltb_spec now e); [| lia].
  rewrite decide_False by (by apply AuthFacts.FormatInt_nonempty).
  by rewrite StrconvFacts.Atoi_FormatInt.
Qed.

(** The same token, once its expiry is reached, is refused as expired. *)
Lemma decide_request_expired (now e : Z) (subject : string) (key : list byte)
      (t : string) (rest : list string) (r : Request) :
  Jwt.SignedString Jwt.SigningMethodHS256
    {| Jwt.Subject := subject; Jwt.ExpiresAt := Some e |} key
  = inr t ->
  Headers r !! "Token" = Some (t :: rest) ->
  e <= now ->
  decide_request key now r = InvalidToken Jwt.ErrTokenExpired.
Proof.
  intros Hsigned Htoken Hnow.
  rewrite (decide_request_signed now _ key t rest r Hsigned Htoken).
  rewrite Validate_claimSet.
  destruct (Z.ltb_spec now e); [lia | reflexivity].
Qed.

End Issued.

(** Truncation to whole seconds loses less than a second. *)
Lemma NewNumericDate_bounds (t : Z) :
  t - Jwt.Second < Jwt.NewNumericDate t <= t.
Proof.
  unfold Jwt.NewNumericDate, Jwt.Second.
  pose proof (Z.mod_pos_bound t 1000000000). lia.
Qed.

End IssueFacts.

(** ** handlers/auth/auth.go: further properties *)

Module AuthExtras.
Import Http Handlers Auth GateSpec.

(** An id comes out of [getIDFromToken] only from a subject that is
    present, is text, is not empty and parses as an integer; the id is
    then that integer and fits Go's [int]. *)
Theorem getIDFromToken_sound (token : Jwt.Token) (id : Z) :
  getIDFromToken token = inr id ->
  Strconv.is_int id /\
  exists subject,
    Jwt.sub (Jwt.Claims token) = Jwt.ClaimString subject /\
    subject <> "" /\
    Strconv.Atoi subject = inr id.
Proof.
  rewrite GateFacts.getIDFromToken_cases.
  destruct (Jwt.sub (Jwt.Claims token)) as [| subject |]; try discriminate.
  destruct (decide (subject = "")) as [| Hne]; [discriminate |].
  destruct (Strconv.Atoi subject) as [e | n] eqn:Hatoi; [discriminate |].
  intros [= <-]. split; [by eapply StrconvFacts.Atoi_is_int |].
  by exists subject.
Qed.

Lemma getIDFromToken_sound_witness :
  Strconv.is_int 42 /\
  exists subject,
    Jwt.ClaimString "+42" = Jwt.ClaimString subject /\
    subject <> "" /\
    Strconv.Atoi subject = inr 42.
Proof.
  apply (getIDFromToken_sound
           {| Jwt.Raw := ""; Jwt.Method := Jwt.SigningMethodHS256;
              Jwt.Header := Some "HS256";
              Jwt.Claims := {| Jwt.sub := Jwt.ClaimString "+42"; Jwt.exp := None |};
              Jwt.Signature := []; Jwt.Valid := true |} 42).
  reflexivity.
Defined.

Section Gate.
Context `{Jwt.WireLaws} {R St : Type}.

(** A token made by [GenerateJWTWithoutSubject] passes verification while
    it is fresh, and is then turned away by the middleware for its
    missing subject: 401, the state untouched, the downstream handler
    not run. *)
Theorem token_without_subject_unauthorized
        (endpointHandler : HandlerFunc (Document R) St)
        (secretKey : list byte) (issuedAt expiresAt now : Z)
        (t : string) (rest : list string)
        (w : ResponseWriter (Document R)) (r : Request) (st : St) :
  GenerateJWTWithoutSubject issuedAt secretKey expiresAt = inr t ->
  Headers r !! "Token" = Some (t :: rest) ->
  now < Jwt.NewNumericDate (issuedAt + expiresAt) ->
  (exists token, VerifyJWT now t secretKey = inr token) /\
  AuthenticationMiddleware endpointHandler secretKey now w r st
  = Returned (unauthorized (HandlersText ErrMissingSubject) w, st).
Proof.
  intros Hgen Htoken Hnow. split.
  - rewrite (IssueFacts.VerifyJWT_SignedString now _ secretKey t Hgen).
    rewrite IssueFacts.Validate_claimSet.
    destruct (Z.ltb_spec now (Jwt.NewNumericDate (issuedAt + expiresAt))); [| lia].
    eauto.
  - rewrite GateFacts.AuthenticationMiddleware_decision by congruence.
    rewrite (IssueFacts.decide_request_signed now _ secretKey t rest r Hgen Htoken).
    rewrite IssueFacts.Validate_claimSet.
    destruct (Z.ltb_spec now (Jwt.NewNumericDate (issuedAt + expiresAt))); [| lia].
    reflexivity.
Qed.

(** A fresh token made by [GenerateJWTWithStringSubject] is treated by
    the middleware according to its text: empty, it counts as a missing
    subject; not a number, it is refused as a non-integer subject; a
    number, however written (a sign, leading zeros), it is accepted and
    the downstream handler finds the number in canonical decimal form
    under [Subject]. *)
Theorem token_with_string_subject
        (endpointHandler : HandlerFunc (Document R) St)
        (secretKey : list byte) (issuedAt expiresAt now : Z) (subject : string)
        (t : string) (rest : list string)
        (w : ResponseWriter (Document R)) (r : Request) (st : St) :
  GenerateJWTWithStringSubject issuedAt secretKey expiresAt subject = inr t ->
  Headers r !! "Token" = Some (t :: rest) ->
  now < Jwt.NewNumericDate (issuedAt + expiresAt) ->
  AuthenticationMiddleware endpointHandler secretKey now w r st =
    if decide (subject = "")
    then Returned (unauthorized (HandlersText ErrMissingSubject) w, st)
    else
      match Strconv.Atoi subject with
      | inl _ => Returned (unauthorized (HandlersText ErrNonIntegerSubject) w, st)
      | inr id =>
          endpointHandler w
            (withHeaders r (Add "Subject" (Strconv.Itoa id) (Headers r))) st
      end.
Proof.
  intros Hgen Htoken Hnow.
  rewrite GateFacts.AuthenticationMiddleware_decision by congruence.
  rewrite (IssueFacts.decide_request_signed now _ secretKey t rest r Hgen Htoken).
  rewrite IssueFacts.Validate_claimSet. cbn [Jwt.Subject].
  destruct (Z.ltb_spec now (Jwt.NewNumericDate (issuedAt + expiresAt))); [| lia].
  destruct (decide (subject = "")); [reflexivity |].
  destruct (Strconv.Atoi subject); reflexivity.
Qed.

(** Tokens issued at the same instant, with the same key and lifetime,
    for two different subjects are different strings. *)
Theorem GenerateJWT_distinct_subjects
        (secretKey : list byte) (issuedAt expiresAt subject1 subject2 : Z) :
  Strconv.is_int subject1 ->
  Strconv.is_int subject2 ->
  subject1 <> subject2 ->
  GenerateJWT issuedAt secretKey expiresAt subject1
  <> GenerateJWT issuedAt secretKey expiresAt subject2.
Proof.
  intros Hint1 Hint2 Hne. rewrite !AuthFacts.GenerateJWT_eq. cbv zeta.
  intros [= Heq]. apply Hne.
  apply (f_equal Jwt.Segments) in Heq.
  rewrite !Jwt.Segments_Compact in Heq.
  injection Heq as Hclaims _ _.
  unfold Jwt.claimSet in Hclaims. cbn [Jwt.Subject Jwt.ExpiresAt] in Hclaims.
  rewrite !decide_False in Hclaims by (by apply AuthFacts.FormatInt_nonempty).
  injection Hclaims as Hfmt.
  apply (f_equal Strconv.Atoi) in Hfmt.
  rewrite !StrconvFacts.Atoi_FormatInt in Hfmt by done.
  congruence.
Qed.

(** The window in which an issued token works, in terms of the lifetime
    given to [GenerateJWT]: it is accepted, as its subject, at every
    instant up to a second before issue instant plus lifetime, and it is
    refused as expired from issue instant plus lifetime on. *)
Theorem GenerateJWT_validity_window
        (secretKey : list byte) (issuedAt expiresAt subject now : Z) (t : string) :
  Strconv.is_int subject ->
  GenerateJWT issuedAt secretKey expiresAt subject = inr t ->
  (now <= issuedAt + expiresAt - Jwt.Second ->
   exists token,
     VerifyJWT now t secretKey = inr token /\ getIDFromToken token = inr subject) /\
  (issuedAt + expiresAt <= now ->
   VerifyJWT now t secretKey = inl Jwt.ErrTokenExpired).
Proof.
  intros Hint Hgen.
  pose proof (IssueFacts.NewNumericDate_bounds (issuedAt + expiresAt)) as Hb.
  rewrite (IssueFacts.VerifyJWT_SignedString now _ secretKey t Hgen).
  rewrite IssueFacts.Validate_claimSet. split; intros Hnow.
  - destruct (Z.ltb_spec now (Jwt.NewNumericDate (issuedAt + expiresAt))); [| lia].
    eexists. split; [reflexivity |].
    rewrite GateFacts.getIDFromToken_cases. cbn [Jwt.Claims].
    unfold Jwt.claimSet. cbn [Jwt.sub Jwt.Subject].
    rewrite !decide_False by (by apply AuthFacts.FormatInt_nonempty).
    by rewrite StrconvFacts.Atoi_FormatInt.
  - destruct (Z.ltb_spec now (Jwt.NewNumericDate (issuedAt + expiresAt)));
      [lia | reflexivity].
Qed.

End Gate.
End AuthExtras.

(** ** customer_server.go: further properties *)

Module ServerExtras.
Import Http Handlers Models Validation CustomerServer.

Lemma WriteHeader_header {V} (code : Z) (w : ResponseWriter V) :
  header (WriteHeader code w) = header w.
Proof. unfold WriteHeader. by destruct (wroteHeader w). Qed.

Lemma orZero_Itoa (id : Z) :
  Strconv.is_int id -> orZero (Strconv.Atoi (Strconv.Itoa id)) = id.
Proof.
  intros Hint. unfold Strconv.Itoa.
  by rewrite StrconvFacts.Atoi_FormatInt.
Qed.

(** The three ways [id, _ := strconv.Atoi(s)] leaves [id]: the number,
    zero for text that is no number, and the nearest bound of [int] for
    a number out of range. *)
Example orZero_cases :
  orZero (Strconv.Atoi "17") = 17 /\
  orZero (Strconv.Atoi "seventeen") = 0 /\
  orZero (Strconv.Atoi "9223372036854775808") = Strconv.MaxInt /\
  orZero (Strconv.Atoi "-9223372036854775809") = Strconv.MinInt.
Proof. repeat split. Qed.

(** Whatever the text, the id a handler goes on with is an [int]. *)
Lemma orZero_is_int (s : string) : Strconv.is_int (orZero (Strconv.Atoi s)).
Proof.
  destruct (Strconv.Atoi s) as [[| clamped] | id] eqn:Hatoi; cbn [orZero].
  - unfold Strconv.is_int, Strconv.MinInt, Strconv.MaxInt. lia.
  - apply StrconvFacts.Atoi_ErrRange in Hatoi as [-> | ->];
      unfold Strconv.is_int, Strconv.MinInt, Strconv.MaxInt; lia.
  - by eapply StrconvFacts.Atoi_is_int.
Qed.

Section Server.
Context `{Jwt.WireLaws} `{Govalidator} {S : Type} `{CustomerStore S}.

(** [getCustomer] on a request whose first [Subject] value is [subject]. *)
Lemma getCustomer_eq (c : CustomerServer) (w : ResponseWriter Doc)
      (r : Request) (env : Env S) (subject : string) (rest : list string) :
  Headers r !! "Subject" = Some (subject :: rest) ->
  getCustomer c w r env =
    Returned
      (match GetCustomerById (store env) (orZero (Strconv.Atoi subject)) with
       | None => respond StatusNotFound (HandlersText ErrMissingCustomer) w
       | Some customer => Encode (ValueDocument (newGetCustomerResponse customer)) w
       end,
       logged env (store env)
              (CallGetCustomerById (orZero (Strconv.Atoi subject)))).
Proof.
  intros Hs. unfold getCustomer. rewrite Hs. unfold getCustomerById.
  by destruct (GetCustomerById (store env) (orZero (Strconv.Atoi subject))).
Qed.

(** An accepted GET whose request brought no [Subject] header of its own
    is served for the token's subject: the store is asked for exactly
    that id, once, and the answer is that customer's record or 404. *)
Theorem accepted_get_serves_token_subject
        (c : CustomerServer) (now : Z) (w : ResponseWriter Doc)
        (r : Request) (env : Env S) (id : Z) :
  Method r = "GET" ->
  GateSpec.decide_request (secretKey c) now r = GateSpec.Accept id ->
  Headers r !! "Subject" = None ->
  CustomerHandler c now w r env =
    Returned
      (match GetCustomerById (store env) id with
       | None => respond StatusNotFound (HandlersText ErrMissingCustomer) w
       | Some customer => Encode (ValueDocument (newGetCustomerResponse customer)) w
       end,
       {| store := store env; calls := (calls env ++ [CallGetCustomerById id])%list |}).
Proof.
  intros Hm Hacc Hnone. unfold CustomerHandler. rewrite Hm. cbn [String.eqb].
  replace (String.eqb "GET" "POST") with false by reflexivity.
  replace (String.eqb "GET" "GET") with true by reflexivity.
  rewrite (GateFacts.AuthenticationMiddleware_accept _ _ _ _ _ _ id Hacc).
  rewrite (getCustomer_eq c w _ env (Strconv.Itoa id) []).
  - rewrite orZero_Itoa by (by eapply GateFacts.Accept_is_int). reflexivity.
  - cbn [Headers withHeaders]. rewrite HttpFacts.Add_lookup, Hnone. reflexivity.
Qed.

(** An accepted GET whose request already carried a [Subject] header is
    served for that header's first value, read as [Atoi] returns it
    with the error dropped (0 if it is not a number, the nearest bound
    of [int] if it is one out of range), whatever subject the token
    names: [Header.Add] put the token's subject behind it and the
    handler reads the first value. *)
Theorem inbound_subject_header_wins
        (c : CustomerServer) (now : Z) (w : ResponseWriter Doc)
        (r : Request) (env : Env S) (id : Z)
        (claimed : string) (more : list string) :
  Method r = "GET" ->
  GateSpec.decide_request (secretKey c) now r = GateSpec.Accept id ->
  Headers r !! "Subject" = Some (claimed :: more) ->
  CustomerHandler c now w r env =
    Returned
      (match GetCustomerById (store env) (orZero (Strconv.Atoi claimed)) with
       | None => respond StatusNotFound (HandlersText ErrMissingCustomer) w
       | Some customer => Encode (ValueDocument (newGetCustomerResponse customer)) w
       end,
       {| store := store env;
          calls := (calls env
                    ++ [CallGetCustomerById (orZero (Strconv.Atoi claimed))])%list |}).
Proof.
  intros Hm Hacc Hsome. unfold CustomerHandler. rewrite Hm.
  replace (String.eqb "GET" "POST") with false by reflexivity.
  replace (String.eqb "GET" "GET") with true by reflexivity.
  rewrite (GateFacts.AuthenticationMiddleware_accept _ _ _ _ _ _ id Hacc).
  rewrite (getCustomer_eq c w _ env claimed (more ++ [Strconv.Itoa id])%list);
    [reflexivity |].
  cbn [Headers withHeaders]. rewrite HttpFacts.Add_lookup, Hsome. reflexivity.
Qed.

(** A GET, DELETE or PUT the gate does not accept is answered 401 with
    the gate's message and makes no call on the store. *)
Theorem rejected_request_makes_no_store_call
        (c : CustomerServer) (now : Z) (w : ResponseWriter Doc)
        (r : Request) (env : Env S) (text : ErrorText) :
  Method r = "GET" \/ Method r = "DELETE" \/ Method r = "PUT" ->
  Headers r !! "Token" <> Some [] ->
  GateSpec.rejection (GateSpec.decide_request (secretKey c) now r) = Some text ->
  CustomerHandler c now w r env = Returned (Auth.unauthorized text w, env).
Proof.
  intros Hm Hwf Hrej. unfold CustomerHandler.
  assert (forall h : HandlerFunc Doc (Env S),
             Auth.AuthenticationMiddleware h (secretKey c) now w r env
             = Returned (Auth.unauthorized text w, env)) as Hgate.
  { intros h. rewrite GateFacts.AuthenticationMiddleware_decision by done.
    destruct (GateSpec.decide_request (secretKey c) now r);
      cbn [GateSpec.rejection] in Hrej; congruence. }
  destruct Hm as [-> | [-> | ->]]; cbn; apply Hgate.
Qed.

(** *** Login *)

(** The calls [LoginHandler] makes on the store: none when the body
    fails validation, and otherwise exactly one, the lookup under the
    e-mail of the request, whatever the lookup finds and however the
    handler ends.  It never calls a writing method. *)
Theorem LoginHandler_reads_only
        (c : CustomerServer) (w : ResponseWriter Doc) (r : Request) (env : Env S) :
  calls (state_of (LoginHandler c w r env)).2
  = match ValidateRequest (Req := LoginCustomerRequest) (Body r) with
    | inl _ => calls env
    | inr q => (calls env ++ [CallGetCustomerByEmail (login_Email q)])%list
    end /\
  forall call,
    In call (calls (state_of (LoginHandler c w r env)).2) ->
    In call (calls env) \/ is_write call = false.
Proof.
  assert (calls (state_of (LoginHandler c w r env)).2
          = match ValidateRequest (Req := LoginCustomerRequest) (Body r) with
            | inl _ => calls env
            | inr q => (calls env ++ [CallGetCustomerByEmail (login_Email q)])%list
            end) as Hcalls.
  { unfold LoginHandler.
    destruct (ValidateRequest (Body r)) as [err | q]; [reflexivity |].
    unfold getCustomerByEmail.
    destruct (GetCustomerByEmail (store env) (login_Email q)) as [customer |];
      [| reflexivity].
    by destruct (negb (String.eqb (Models.Password customer) (login_Password q))). }
  split; [exact Hcalls |].
  intros call. rewrite Hcalls.
  destruct (ValidateRequest (Body r)) as [err | q]; [by left |].
  intros [Hold | [<- | []]]%in_app_or; [by left | by right].
Qed.

(** A login with a well-formed body is answered 202 exactly when the
    store has a customer under the e-mail and the stored password equals
    the submitted one, by plain comparison; every other login is
    answered 401 and adds nothing to the response headers. *)
Theorem LoginHandler_accepts_iff_password
        (c : CustomerServer) (w : ResponseWriter Doc) (r : Request) (env : Env S)
        (q : LoginCustomerRequest) :
  wroteHeader w = false ->
  ValidateRequest (Req := LoginCustomerRequest) (Body r) = inr q ->
  exists w' env',
    LoginHandler c w r env = Returned (w', env') /\
    (status w' = StatusAccepted <->
     exists customer,
       GetCustomerByEmail (store env) (login_Email q) = Some customer /\
       Models.Password customer = login_Password q) /\
    (status w' = StatusAccepted \/
     (status w' = StatusUnauthorized /\ header w' = header w)).
Proof.
  intros Hw Hv. unfold LoginHandler. rewrite Hv. unfold getCustomerByEmail.
  assert (forall text, status (respond StatusUnauthorized text w) = StatusUnauthorized)
    as Hst by (intros; by apply ServerFacts.respond_status).
  assert (forall text, header (respond StatusUnauthorized text w) = header w)
    as Hhd by (intros; unfold respond, Encode, WriteHeader; by rewrite Hw).
  destruct (GetCustomerByEmail (store env) (login_Email q)) as [customer |].
  - destruct (String.eqb_spec (Models.Password customer) (login_Password q))
      as [Heq | Hne]; cbn [negb].
    + eexists. eexists. split; [reflexivity |].
      destruct (ServerFacts.accepted_writer
                  (orEmpty (GenerateJWT (secretKey c) (expiresAt c) (Models.Id customer)))
                  w Hw) as (Hs & _ & _).
      split; [| by left]. split; [| done]. intros _. by exists customer.
    + eexists. eexists. split; [reflexivity |]. rewrite Hst, Hhd.
      split; [| by right].
      split; [discriminate |]. intros (customer' & [= <-] & Heq). done.
  - eexists. eexists. split; [reflexivity |]. rewrite Hst, Hhd.
    split; [| by right].
    split; [discriminate |]. intros (customer' & Hsome & _). discriminate.
Qed.

(** The token a successful login leaves in the header map is one the
    gate accepts, as the id of the customer who logged in, at every
    instant before the server's expiry (truncated to whole seconds). *)
Theorem login_token_opens_gate
        (c : CustomerServer) (w : ResponseWriter Doc) (r : Request) (env : Env S)
        (q : LoginCustomerRequest) (customer : Customer)
        (now : Z) (r' : Request) :
  ValidateRequest (Req := LoginCustomerRequest) (Body r) = inr q ->
  GetCustomerByEmail (store env) (login_Email q) = Some customer ->
  Models.Password customer = login_Password q ->
  Strconv.is_int (Models.Id customer) ->
  now < Jwt.NewNumericDate (expiresAt c) ->
  exists (w' : ResponseWriter Doc) (env' : Env S) (t : string),
    LoginHandler c w r env = Returned (w', env') /\
    header w' !! "Token" = Some (default [] (header w !! "Token") ++ [t])%list /\
    (Headers r' !! "Token" = Some [t] ->
     GateSpec.decide_request (secretKey c) now r' = GateSpec.Accept (Models.Id customer)).
Proof.
  intros Hv Hfound Hpw Hint Hnow.
  destruct (ServerFacts.LoginHandler_accepted c w r env q customer Hv Hfound Hpw)
    as (env' & ->).
  eexists. eexists. eexists. split; [reflexivity |].
  split.
  { cbn [header HeaderAdd]. rewrite HttpFacts.Add_lookup.
    by rewrite WriteHeader_header. }
  intros Htoken.
  by eapply (IssueFacts.decide_request_subject now (Jwt.NewNumericDate (expiresAt c))
               (Models.Id customer) (secretKey c) _ [] r').
Qed.

(** The server's expiry is one fixed instant, not a lifetime: from that
    instant on a correct login is still answered with a token, and the
    token is refused by the gate as expired. *)
Theorem login_after_expiry_issues_dead_token
        (c : CustomerServer) (w : ResponseWriter Doc) (r : Request) (env : Env S)
        (q : LoginCustomerRequest) (customer : Customer)
        (now : Z) (r' : Request) :
  ValidateRequest (Req := LoginCustomerRequest) (Body r) = inr q ->
  GetCustomerByEmail (store env) (login_Email q) = Some customer ->
  Models.Password customer = login_Password q ->
  expiresAt c <= now ->
  exists (w' : ResponseWriter Doc) (env' : Env S) (t : string),
    LoginHandler c w r env = Returned (w', env') /\
    header w' !! "Token" = Some (default [] (header w !! "Token") ++ [t])%list /\
    (Headers r' !! "Token" = Some [t] ->
     GateSpec.decide_request (secretKey c) now r'
     = GateSpec.InvalidToken Jwt.ErrTokenExpired).
Proof.
  intros Hv Hfound Hpw Hnow.
  destruct (ServerFacts.LoginHandler_accepted c w r env q customer Hv Hfound Hpw)
    as (env' & ->).
  eexists. eexists. eexists. split; [reflexivity |].
  split.
  { cbn [header HeaderAdd]. rewrite HttpFacts.Add_lookup.
    by rewrite WriteHeader_header. }
  intros Htoken.
  pose proof (IssueFacts.NewNumericDate_bounds (expiresAt c)) as Hb.
  eapply (IssueFacts.decide_request_expired now (Jwt.NewNumericDate (expiresAt c))
            _ (secretKey c) _ [] r'); [reflexivity | exact Htoken | lia].
Qed.

End Server.
End ServerExtras.

(** ** customer_server.go: creating, updating and deleting *)

Module StoreExtras.
Import Http Handlers Models Validation CustomerServer.

Section Server.
Context `{Jwt.WireLaws} `{Govalidator} {S : Type} `{CustomerStore S}.

Lemma respond_writer (code : Z) (text : ErrorText) (w : ResponseWriter Doc) :
  wroteHeader w = false ->
  status (respond code text w) = code /\
  body (respond code text w) = (body w ++ [ErrorDocument {| Message := text |}])%list /\
  header (respond code text w) = header w.
Proof.
  intros Hw. split; [by apply ServerFacts.respond_status |].
  unfold respond, Encode, WriteHeader. rewrite Hw. by cbn.
Qed.

Lemma finish_written (w : ResponseWriter Doc) :
  wroteHeader w = true -> finish w = w.
Proof. intros Hw. unfold finish, WriteHeader. by rewrite Hw. Qed.

(** A GET the gate accepts runs [getCustomer] on the request with the
    subject added. *)
Lemma CustomerHandler_get (c : CustomerServer) (now : Z) (w : ResponseWriter Doc)
      (r : Request) (env : Env S) (id : Z) :
  Method r = "GET" ->
  GateSpec.decide_request (secretKey c) now r = GateSpec.Accept id ->
  CustomerHandler c now w r env
  = getCustomer c w (withHeaders r (Add "Subject" (Strconv.Itoa id) (Headers r))) env.
Proof.
  intros Hm Hacc. unfold CustomerHandler. rewrite Hm.
  replace (String.eqb "GET" "POST") with false by reflexivity.
  replace (String.eqb "GET" "GET") with true by reflexivity.
  by apply GateFacts.AuthenticationMiddleware_accept.
Qed.

(** Creating a customer under an e-mail the store already knows is
    answered 400 with the existing-user error: the store has been asked
    once, by e-mail, nothing is stored and no token is issued. *)
Theorem storeCustomer_existing_email
        (c : CustomerServer) (w : ResponseWriter Doc) (r : Request) (env : Env S)
        (q : CreateCustomerRequest) (existing : Customer) :
  wroteHeader w = false ->
  ValidateRequest (Req := CreateCustomerRequest) (Body r) = inr q ->
  GetCustomerByEmail (store env) (create_Email q) = Some existing ->
  exists w',
    storeCustomer c w r env
    = Returned (w', {| store := store env;
                       calls := (calls env
                                 ++ [CallGetCustomerByEmail (create_Email q)])%list |}) /\
    status w' = StatusBadRequest /\
    body w' = (body w ++ [ErrorDocument
                            {| Message := HandlersText ErrExistingUser |}])%list /\
    header w' = header w.
Proof.
  intros Hw Hv Hfound. unfold storeCustomer. rewrite Hv.
  unfold getCustomerByEmail. rewrite Hfound.
  eexists. split; [reflexivity |]. by apply respond_writer.
Qed.

(** Creating a customer under a free e-mail makes two calls on the store,
    the lookup by e-mail and [StoreCustomer] with a record whose [Id] is
    0 and whose other fields, the password as submitted among them, are
    those of the request; the token put in the header map is issued for
    the id [StoreCustomer] returned. *)
Theorem storeCustomer_stores_request
        (c : CustomerServer) (w : ResponseWriter Doc) (r : Request) (env : Env S)
        (q : CreateCustomerRequest) (customerId : Z) (s1 : S) :
  ValidateRequest (Req := CreateCustomerRequest) (Body r) = inr q ->
  GetCustomerByEmail (store env) (create_Email q) = None ->
  StoreCustomer (store env) (getCustomerFromCreateCustomerRequest q) = (customerId, s1) ->
  exists w',
    storeCustomer c w r env
    = Returned
        (w', {| store := s1;
                calls := (calls env
                          ++ [CallGetCustomerByEmail (create_Email q);
                              CallStoreCustomer
                                {| Models.Id := 0;
                                   Models.FirstName := create_FirstName q;
                                   Models.LastName := create_LastName q;
                                   Models.PhoneNumber := create_PhoneNumber q;
                                   Models.Email := create_Email q;
                                   Models.Password := create_Password q |}])%list |}) /\
    header w' !! "Token"
    = Some (default [] (header w !! "Token")
            ++ [orEmpty (GenerateJWT (secretKey c) (expiresAt c) customerId)])%list.
Proof.
  intros Hv Hfree Hstore. unfold storeCustomer. rewrite Hv.
  unfold getCustomerByEmail. rewrite Hfree.
  unfold Models.storeCustomer, logged. cbn [store calls]. rewrite Hstore.
  eexists. split.
  - rewrite <- app_assoc. reflexivity.
  - cbn [header HeaderAdd]. rewrite HttpFacts.Add_lookup.
    by rewrite ServerExtras.WriteHeader_header.
Qed.

(** Create, then read: the token a creation issues, sent back in a fresh
    GET request before the server's expiry, is accepted and answered
    with the record the store holds under the id it gave the new
    customer. *)
Theorem created_customer_reads_own_record
        (c : CustomerServer) (w : ResponseWriter Doc) (r : Request) (env : Env S)
        (q : CreateCustomerRequest) (customerId : Z) (s1 : S)
        (stored : Customer) (now : Z) (w2 : ResponseWriter Doc) :
  ValidateRequest (Req := CreateCustomerRequest) (Body r) = inr q ->
  GetCustomerByEmail (store env) (create_Email q) = None ->
  StoreCustomer (store env) (getCustomerFromCreateCustomerRequest q) = (customerId, s1) ->
  Strconv.is_int customerId ->
  now < Jwt.NewNumericDate (expiresAt c) ->
  GetCustomerById s1 customerId = Some stored ->
  exists (w1 : ResponseWriter Doc) (env1 : Env S) (t : string),
    storeCustomer c w r env = Returned (w1, env1) /\
    store env1 = s1 /\
    header w1 !! "Token" = Some (default [] (header w !! "Token") ++ [t])%list /\
    CustomerHandler c now w2 (Main.newGetCustomerRequest t) env1
    = Returned (Encode (ValueDocument (newGetCustomerResponse stored)) w2,
                {| store := s1;
                   calls := (calls env1 ++ [CallGetCustomerById customerId])%list |}).
Proof.
  intros Hv Hfree Hstore Hint Hnow Hget.
  unfold storeCustomer. rewrite Hv.
  unfold getCustomerByEmail. rewrite Hfree.
  unfold Models.storeCustomer, logged. cbn [store calls]. rewrite Hstore.
  eexists. eexists. eexists. split; [reflexivity |]. split; [reflexivity |].
  split.
  { cbn [header HeaderAdd]. rewrite HttpFacts.Add_lookup.
    by rewrite ServerExtras.WriteHeader_header. }
  rewrite (CustomerHandler_get c now w2 _ _ customerId); [| reflexivity |].
  - erewrite ServerExtras.getCustomer_eq; [| reflexivity].
    cbn [head]. rewrite ServerExtras.orZero_Itoa by done.
    cbn [store]. by rewrite Hget.
  - by eapply (IssueFacts.decide_request_subject now
                 (Jwt.NewNumericDate (expiresAt c)) customerId (secretKey c) _ []).
Qed.

(** An update whose first [Subject] value names a customer with a
    record, and whose body is valid, makes two calls on the store, the
    lookup and then [UpdateCustomer] with a record that carries the
    stored [Id] and the request's first name, last name, phone number,
    e-mail and password; the handler returns having written nothing to
    the response, whether [UpdateCustomer] reports an error or not. *)
Theorem updateCustomer_overwrites
        (c : CustomerServer) (w : ResponseWriter Doc) (r : Request) (env : Env S)
        (subject : string) (rest : list string)
        (stored : Customer) (q : UpdateCustomerRequest) :
  Headers r !! "Subject" = Some (subject :: rest) ->
  GetCustomerById (store env) (orZero (Strconv.Atoi subject)) = Some stored ->
  ValidateRequest (Req := UpdateCustomerRequest) (Body r) = inr q ->
  exists env',
    updateCustomer c w r env = Returned (w, env') /\
    calls env'
    = (calls env
       ++ [CallGetCustomerById (orZero (Strconv.Atoi subject));
           CallUpdateCustomer
             {| Models.Id := Models.Id stored;
                Models.FirstName := update_FirstName q;
                Models.LastName := update_LastName q;
                Models.PhoneNumber := update_PhoneNumber q;
                Models.Email := update_Email q;
                Models.Password := update_Password q |}])%list.
Proof.
  intros Hs Hget Hv. unfold updateCustomer. rewrite Hs.
  unfold getCustomerById. rewrite Hv, Hget.
  unfold Models.updateCustomer, logged. cbn [store calls].
  destruct (UpdateCustomer (store env) _) as [err s1].
  eexists. split; [reflexivity |]. cbn [calls]. by rewrite <- app_assoc.
Qed.

(** A delete makes exactly one call, [DeleteCustomer] for the id read
    from the first [Subject] value.
    If the store reports an error the answer is 404 with the
    missing-customer error; if not, the handler writes nothing and the
    response goes out as an empty 200. *)
Theorem deleteCustomer_outcome
        (c : CustomerServer) (w : ResponseWriter Doc) (r : Request) (env : Env S)
        (subject : string) (rest : list string) (err : error) (s1 : S) :
  wroteHeader w = false ->
  Headers r !! "Subject" = Some (subject :: rest) ->
  DeleteCustomer (store env) (orZero (Strconv.Atoi subject)) = (err, s1) ->
  exists w',
    deleteCustomer c w r env
    = Returned (w', {| store := s1;
                       calls := (calls env
                                 ++ [CallDeleteCustomer
                                       (orZero (Strconv.Atoi subject))])%list |}) /\
    status (finish w')
    = match err with Some _ => StatusNotFound | None => StatusOK end /\
    body w'
    = match err with
      | Some _ => (body w ++ [ErrorDocument
                                {| Message := HandlersText ErrMissingCustomer |}])%list
      | None => body w
      end.
Proof.
  intros Hw Hs Hdel. unfold deleteCustomer. rewrite Hs.
  unfold Models.deleteCustomer, logged. rewrite Hdel.
  destruct err as [e |]; eexists; (split; [reflexivity |]).
  - destruct (respond_writer StatusNotFound (HandlersText ErrMissingCustomer) w Hw)
      as (Hst & Hbody & _).
    split; [| exact Hbody].
    rewrite finish_written by reflexivity. exact Hst.
  - split; [| reflexivity]. unfold finish. by apply HttpFacts.WriteHeader_status.
Qed.

End Server.
End StoreExtras.

(** ** Dispatch, conversions, the phone-number rule, the stub store *)

Module MiscExtras.
Import Http Handlers Models.

Section Routes.
Context `{Jwt.Wire} {R St : Type}.
Variables createCustomer getCustomer deleteCustomer updateCustomer :
  CustomerRoutes.CustomerServer -> HandlerFunc (Document R) St.

(** Of the four endpoints only [createCustomer] can run without an
    accepted token: a request with another method that the gate does not
    accept is answered 401 by the gate (GET, DELETE, PUT) or falls
    through the switch with nothing done (any other method); in neither
    case does an endpoint run or the state change. *)
Theorem only_create_runs_unauthenticated
        (c : CustomerRoutes.CustomerServer) (now : Z)
        (w : ResponseWriter (Document R)) (r : Request) (st : St) (text : ErrorText) :
  Method r <> "POST" ->
  Headers r !! "Token" <> Some [] ->
  GateSpec.rejection
    (GateSpec.decide_request (CustomerRoutes.secretKey c) now r) = Some text ->
  CustomerRoutes.CustomerHandler
    createCustomer getCustomer deleteCustomer updateCustomer c now w r st
  = if (String.eqb (Method r) "GET" || String.eqb (Method r) "DELETE"
        || String.eqb (Method r) "PUT")%bool
    then Returned (Auth.unauthorized text w, st)
    else Returned (w, st).
Proof.
  intros Hpost Hwf Hrej. unfold CustomerRoutes.CustomerHandler.
  assert (forall h : HandlerFunc (Document R) St,
             Auth.AuthenticationMiddleware h (CustomerRoutes.secretKey c) now w r st
             = Returned (Auth.unauthorized text w, st)) as Hgate.
  { intros h. rewrite GateFacts.AuthenticationMiddleware_decision by done.
    destruct (GateSpec.decide_request (CustomerRoutes.secretKey c) now r);
      cbn [GateSpec.rejection] in Hrej; congruence. }
  destruct (String.eqb_spec (Method r) "POST"); [done |].
  destruct (String.eqb (Method r) "GET"); [apply Hgate |].
  destruct (String.eqb (Method r) "DELETE"); [apply Hgate |].
  destruct (String.eqb (Method r) "PUT"); [apply Hgate | reflexivity].
Qed.

End Routes.

(** *** customer_types.go *)

(** Request to customer and back is the identity; customer to request
    and back resets [Id] to 0 and keeps the rest, so it gives the
    customer back exactly when its [Id] is 0. *)
Theorem CreateCustomerRequest_roundtrip
        (q : CustomerRequests.CreateCustomerRequest) (customer : Customer) :
  CustomerRequests.CustomerToCreateCustomerRequest
    (CustomerRequests.CreateCustomerRequestToCustomer q) = q /\
  (CustomerRequests.CreateCustomerRequestToCustomer
     (CustomerRequests.CustomerToCreateCustomerRequest customer) = customer
   <-> Id customer = 0).
Proof.
  split.
  - by destruct q.
  - destruct customer as [id fn ln pn em pw].
    unfold CustomerRequests.CreateCustomerRequestToCustomer,
      CustomerRequests.CustomerToCreateCustomerRequest. cbn.
    split; [intros [= <-] | intros ->]; reflexivity.
Qed.

(** With the customer's own id, customer to update request and back is
    the identity, and so is the other way round; the id of the customer
    built is the one passed in, never one taken from the request. *)
Theorem UpdateCustomerRequest_roundtrip
        (q : CustomerRequests.UpdateCustomerRequest) (customer : Customer) (id : Z) :
  CustomerRequests.UpdateCustomerRequestToCustomer
    (CustomerRequests.CustomerToUpdateCustomerRequest customer) (Id customer)
  = customer /\
  CustomerRequests.CustomerToUpdateCustomerRequest
    (CustomerRequests.UpdateCustomerRequestToCustomer q id) = q /\
  Id (CustomerRequests.UpdateCustomerRequestToCustomer q id) = id.
Proof.
  split; [by destruct customer |]. split; [by destruct q | reflexivity].
Qed.

(** *** The phone-number rule registered by [NewCustomerServer] *)

Lemma all_chars_Forall (rest : string) :
  Validation.all_chars
    (fun ch => (Validation.is_digit ch || Ascii.eqb ch " ")%bool) rest = true
  <-> Forall PhoneSpec.phone_char (list_ascii_of_string rest).
Proof.
  induction rest as [| ch rest IH]; cbn [Validation.all_chars list_ascii_of_string].
  - split; [constructor | reflexivity].
  - rewrite andb_true_iff, Forall_cons, IH.
    apply and_iff_compat_r. unfold PhoneSpec.phone_char, Validation.is_digit. cbv zeta.
    rewrite orb_true_iff, andb_true_iff, !N.leb_le.
    apply or_iff_compat_l. apply Ascii.eqb_eq.
Qed.

(** The validator accepts exactly the texts that are a plus sign
    followed by one or more characters, each a decimal digit or a
    space. *)
Theorem matches_phonenumber_iff (str : string) :
  Validation.matches_phonenumber str = true <->
  exists rest,
    str = String "+" rest /\ rest <> "" /\
    Forall PhoneSpec.phone_char (list_ascii_of_string rest).
Proof.
  unfold Validation.matches_phonenumber. destruct str as [| c rest].
  - split; [discriminate | intros (rest & [=] & _)].
  - rewrite !andb_true_iff, Ascii.eqb_eq, negb_true_iff, all_chars_Forall.
    split.
    + intros [[-> Hne] Hall]. exists rest. split; [reflexivity |].
      split; [| exact Hall]. intros ->. discriminate.
    + intros (rest' & [= -> ->] & Hne & Hall).
      split; [split; [reflexivity |] | exact Hall].
      by apply String.eqb_neq.
Qed.

(** *** The stub store of the earlier test file *)

(** [GetCustomerInfo] reports its error only for an id above the length
    of the slice; for an id equal to the length, or negative, the guard
    lets the index through and the lookup panics; the ids from 0 to the
    length minus one are found. *)
Theorem GetCustomerInfo_cases (s : Main.StubCustomerStore) (id : Z) :
  (Main.GetCustomerInfo s id = Main.NoCustomer id <-> Z.of_nat (length s) < id) /\
  (Main.GetCustomerInfo s id = Main.IndexOutOfRange
   <-> id < 0 \/ id = Z.of_nat (length s)) /\
  ((exists info, Main.GetCustomerInfo s id = Main.Info info
                 /\ s !! Z.to_nat id = Some info)
   <-> 0 <= id < Z.of_nat (length s)).
Proof.
  unfold Main.GetCustomerInfo.
  destruct (Z.ltb_spec (Z.of_nat (length s)) id) as [Hgt | Hle].
  { split; [split; [lia | reflexivity] |].
    split; [split; [discriminate | lia] |].
    split; [intros (info & [=] & _) | lia]. }
  destruct (Z.ltb_spec id 0) as [Hneg | Hnn].
  { split; [split; [discriminate | lia] |].
    split; [split; [lia | reflexivity] |].
    split; [intros (info & [=] & _) | lia]. }
  destruct (s !! Z.to_nat id) as [info |] eqn:Hlook.
  - apply lookup_lt_Some in Hlook.
    split; [split; [discriminate | lia] |].
    split; [split; [discriminate | lia] |].
    split; [lia | eauto].
  - apply lookup_ge_None in Hlook.
    split; [split; [discriminate | lia] |].
    split; [split; [lia | reflexivity] |].
    split; [intros (info & [=] & _) | lia].
Qed.

(** *** The token helpers of the earlier main package *)

(** What the tests of the earlier package rely on: a token generated
    with the current instant as its expiry is refused as expired at that
    instant and ever after, and a token generated with an expiry one
    second ahead is accepted at the instant it is generated and carries
    its subject in decimal. *)
Theorem generateJWT_expiry_at_issue `{Jwt.WireLaws}
        (secretKey : list byte) (subject now later : Z) (expired fresh : string) :
  Strconv.is_int subject ->
  Main.generateJWT secretKey now subject = inr expired ->
  Main.generateJWT secretKey (now + Jwt.Second) subject = inr fresh ->
  now <= later ->
  Main.verifyJWT later expired secretKey = inl Jwt.ErrTokenExpired /\
  exists token,
    Main.verifyJWT now fresh secretKey = inr token /\
    Jwt.sub (Jwt.Claims token) = Jwt.ClaimString (Strconv.FormatInt subject) /\
    Auth.getIDFromToken token = inr subject.
Proof.
  intros Hint Hexp Hfresh Hlater.
  pose proof (IssueFacts.NewNumericDate_bounds now) as Hb1.
  pose proof (IssueFacts.NewNumericDate_bounds (now + Jwt.Second)) as Hb2.
  split.
  - change (Main.verifyJWT later expired secretKey)
      with (Auth.VerifyJWT later expired secretKey).
    rewrite (IssueFacts.VerifyJWT_SignedString later _ secretKey expired Hexp).
    rewrite IssueFacts.Validate_claimSet.
    destruct (Z.ltb_spec later (Jwt.NewNumericDate now)); [lia | reflexivity].
  - change (Main.verifyJWT now fresh secretKey)
      with (Auth.VerifyJWT now fresh secretKey).
    rewrite (IssueFacts.VerifyJWT_SignedString now _ secretKey fresh Hfresh).
    rewrite IssueFacts.Validate_claimSet.
    destruct (Z.ltb_spec now (Jwt.NewNumericDate (now + Jwt.Second))); [| lia].
    eexists. split; [reflexivity |].
    rewrite GateFacts.getIDFromToken_cases.
    cbn [Jwt.Claims]. unfold Jwt.claimSet. cbn [Jwt.sub Jwt.Subject].
    rewrite !decide_False by (by apply AuthFacts.FormatInt_nonempty).
    split; [reflexivity |]. by rewrite StrconvFacts.Atoi_FormatInt.
Qed.

End MiscExtras.

(** ** The further properties at concrete inputs *)

Module ExtraExamples.
Import Http Handlers Models Validation CustomerServer Reference ReferenceFacts Fixtures.

Lemma token_without_subject_unauthorized_witness :
  (exists token, Auth.VerifyJWT now0 tokenWithoutSubject key = inr token) /\
  Auth.AuthenticationMiddleware (getCustomer server) key now0
    NewRecorder (withToken "GET" tokenWithoutSubject None) env0
  = Returned (Auth.unauthorized (HandlersText ErrMissingSubject) NewRecorder, env0).
Proof.
  apply (AuthExtras.token_without_subject_unauthorized
           (getCustomer server) key now0 Jwt.Second now0 tokenWithoutSubject []
           NewRecorder (withToken "GET" tokenWithoutSubject None) env0).
  - vm_compute. reflexivity.
  - vm_compute. reflexivity.
  - vm_compute. reflexivity.
Defined.

Lemma token_with_string_subject_witness :
  Auth.AuthenticationMiddleware (getCustomer server) key now0
    NewRecorder (withToken "GET" tokenWithTextSubject None) env0
  = if decide ("peter" = "")
    then Returned (Auth.unauthorized (HandlersText ErrMissingSubject) NewRecorder, env0)
    else
      match Strconv.Atoi "peter" with
      | inl _ =>
          Returned (Auth.unauthorized (HandlersText ErrNonIntegerSubject) NewRecorder,
                    env0)
      | inr id =>
          getCustomer server NewRecorder
            (withHeaders (withToken "GET" tokenWithTextSubject None)
               (Add "Subject" (Strconv.Itoa id)
                    (Headers (withToken "GET" tokenWithTextSubject None)))) env0
      end.
Proof.
  apply (AuthExtras.token_with_string_subject
           (getCustomer server) key now0 Jwt.Second now0 "peter"
           tokenWithTextSubject []
           NewRecorder (withToken "GET" tokenWithTextSubject None) env0).
  - vm_compute. reflexivity.
  - vm_compute. reflexivity.
  - vm_compute. reflexivity.
Defined.

Lemma GenerateJWT_distinct_subjects_witness :
  Auth.GenerateJWT now0 key Jwt.Second 1 <> Auth.GenerateJWT now0 key Jwt.Second 2.
Proof.
  apply (AuthExtras.GenerateJWT_distinct_subjects key now0 Jwt.Second 1 2).
  - unfold Strconv.is_int, Strconv.MinInt, Strconv.MaxInt. lia.
  - unfold Strconv.is_int, Strconv.MinInt, Strconv.MaxInt. lia.
  - lia.
Defined.

Lemma GenerateJWT_validity_window_witness :
  exists token,
    Auth.VerifyJWT now0 (orEmpty (Auth.GenerateJWT now0 key Jwt.Second 1)) key
    = inr token /\
    Auth.getIDFromToken token = inr 1.
Proof.
  refine (proj1 (AuthExtras.GenerateJWT_validity_window key now0 Jwt.Second 1 now0
                   (orEmpty (Auth.GenerateJWT now0 key Jwt.Second 1)) _ _) _).
  - unfold Strconv.is_int, Strconv.MinInt, Strconv.MaxInt. lia.
  - vm_compute. reflexivity.
  - lia.
Defined.

Lemma accepted_get_serves_token_subject_witness :
  CustomerHandler server now0 NewRecorder (withToken "GET" (tokenOf 2) None) env0 =
    Returned
      (match GetCustomerById (store env0) 2 with
       | None => respond StatusNotFound (HandlersText ErrMissingCustomer) NewRecorder
       | Some customer =>
           Encode (ValueDocument (newGetCustomerResponse customer)) NewRecorder
       end,
       {| store := store env0; calls := (calls env0 ++ [CallGetCustomerById 2])%list |}).
Proof.
  apply (ServerExtras.accepted_get_serves_token_subject server now0 NewRecorder
           (withToken "GET" (tokenOf 2) None) env0 2).
  - reflexivity.
  - vm_compute. reflexivity.
  - vm_compute. reflexivity.
Defined.

Lemma inbound_subject_header_wins_witness :
  CustomerHandler server now0 NewRecorder aliceAsPeter env0 =
    Returned
      (match GetCustomerById (store env0) (orZero (Strconv.Atoi "1")) with
       | None => respond StatusNotFound (HandlersText ErrMissingCustomer) NewRecorder
       | Some customer =>
           Encode (ValueDocument (newGetCustomerResponse customer)) NewRecorder
       end,
       {| store := store env0;
          calls := (calls env0 ++ [CallGetCustomerById (orZero (Strconv.Atoi "1"))])%list |}).
Proof.
  apply (ServerExtras.inbound_subject_header_wins server now0 NewRecorder
           aliceAsPeter env0 2 "1" []).
  - reflexivity.
  - vm_compute. reflexivity.
  - vm_compute. reflexivity.
Defined.

Lemma rejected_request_makes_no_store_call_witness :
  CustomerHandler server now0 NewRecorder noToken env0
  = Returned (Auth.unauthorized (HandlersText ErrMissingToken) NewRecorder, env0).
Proof.
  apply (ServerExtras.rejected_request_makes_no_store_call server now0 NewRecorder
           noToken env0 (HandlersText ErrMissingToken)).
  - left. reflexivity.
  - vm_compute. discriminate.
  - vm_compute. reflexivity.
Defined.

Lemma LoginHandler_accepts_iff_password_witness :
  exists w' env',
    LoginHandler server NewRecorder (postLogin Peter) env0 = Returned (w', env') /\
    (status w' = StatusAccepted <->
     exists customer,
       GetCustomerByEmail (store env0) (login_Email loginPeter) = Some customer /\
       Models.Password customer = login_Password loginPeter) /\
    (status w' = StatusAccepted \/
     (status w' = StatusUnauthorized /\ header w' = header (V := Doc) NewRecorder)).
Proof.
  apply (ServerExtras.LoginHandler_accepts_iff_password server NewRecorder
           (postLogin Peter) env0 loginPeter).
  - reflexivity.
  - vm_compute. reflexivity.
Defined.

Lemma login_token_opens_gate_witness :
  exists (w' : ResponseWriter Doc) (env' : Env (list Customer)) (t : string),
    LoginHandler server NewRecorder (postLogin Peter) env0 = Returned (w', env') /\
    header w' !! "Token"
    = Some (default [] (header (V := Doc) NewRecorder !! "Token") ++ [t])%list /\
    (Headers (withToken "GET" (tokenOf 1) None) !! "Token" = Some [t] ->
     GateSpec.decide_request (secretKey server) now0 (withToken "GET" (tokenOf 1) None)
     = GateSpec.Accept (Models.Id Peter)).
Proof.
  apply (ServerExtras.login_token_opens_gate server NewRecorder (postLogin Peter) env0
           loginPeter Peter now0 (withToken "GET" (tokenOf 1) None)).
  - vm_compute. reflexivity.
  - vm_compute. reflexivity.
  - reflexivity.
  - unfold Strconv.is_int, Strconv.MinInt, Strconv.MaxInt. cbn. lia.
  - vm_compute. reflexivity.
Defined.

Lemma storeCustomer_existing_email_witness :
  exists w',
    storeCustomer server NewRecorder (postCustomer Peter) env0
    = Returned (w', {| store := store env0;
                       calls := (calls env0
                                 ++ [CallGetCustomerByEmail
                                       (create_Email createPeter)])%list |}) /\
    status w' = StatusBadRequest /\
    body w' = (body (V := Doc) NewRecorder
               ++ [ErrorDocument {| Message := HandlersText ErrExistingUser |}])%list /\
    header w' = header (V := Doc) NewRecorder.
Proof.
  apply (StoreExtras.storeCustomer_existing_email server NewRecorder
           (postCustomer Peter) env0 createPeter Peter).
  - reflexivity.
  - vm_compute. reflexivity.
  - vm_compute. reflexivity.
Defined.

Lemma storeCustomer_stores_request_witness :
  exists w',
    storeCustomer server NewRecorder (postCustomer Peter) empty0
    = Returned
        (w', {| store := [Peter];
                calls := (calls empty0
                          ++ [CallGetCustomerByEmail (create_Email createPeter);
                              CallStoreCustomer
                                {| Models.Id := 0;
                                   Models.FirstName := create_FirstName createPeter;
                                   Models.LastName := create_LastName createPeter;
                                   Models.PhoneNumber := create_PhoneNumber createPeter;
                                   Models.Email := create_Email createPeter;
                                   Models.Password := create_Password createPeter |}])%list |}) /\
    header w' !! "Token"
    = Some (default [] (header (V := Doc) NewRecorder !! "Token")
            ++ [orEmpty (GenerateJWT (secretKey server) (expiresAt server) 1)])%list.
Proof.
  apply (StoreExtras.storeCustomer_stores_request server NewRecorder
           (postCustomer Peter) empty0 createPeter 1 [Peter]).
  - vm_compute. reflexivity.
  - reflexivity.
  - reflexivity.
Defined.

Lemma created_customer_reads_own_record_witness :
  exists (w1 : ResponseWriter Doc) (env1 : Env (list Customer)) (t : string),
    storeCustomer server NewRecorder (postCustomer Peter) empty0 = Returned (w1, env1) /\
    store env1 = [Peter] /\
    header w1 !! "Token"
    = Some (default [] (header (V := Doc) NewRecorder !! "Token") ++ [t])%list /\
    CustomerHandler server now0 NewRecorder (Main.newGetCustomerRequest t) env1
    = Returned (Encode (ValueDocument (newGetCustomerResponse Peter)) NewRecorder,
                {| store := [Peter];
                   calls := (calls env1 ++ [CallGetCustomerById 1])%list |}).
Proof.
  apply (StoreExtras.created_customer_reads_own_record server NewRecorder
           (postCustomer Peter) empty0 createPeter 1 [Peter] Peter now0 NewRecorder).
  - vm_compute. reflexivity.
  - reflexivity.
  - reflexivity.
  - unfold Strconv.is_int, Strconv.MinInt, Strconv.MaxInt. lia.
  - vm_compute. reflexivity.
  - reflexivity.
Defined.

Lemma updateCustomer_overwrites_witness :
  exists env',
    updateCustomer server NewRecorder
      (pastGate "PUT" 1 (Some (customerObject Peter'))) env0
    = Returned (NewRecorder, env') /\
    calls env'
    = (calls env0
       ++ [CallGetCustomerById (orZero (Strconv.Atoi (Strconv.Itoa 1)));
           CallUpdateCustomer
             {| Models.Id := Models.Id Peter;
                Models.FirstName := update_FirstName updatePeter;
                Models.LastName := update_LastName updatePeter;
                Models.PhoneNumber := update_PhoneNumber updatePeter;
                Models.Email := update_Email updatePeter;
                Models.Password := update_Password updatePeter |}])%list.
Proof.
  apply (StoreExtras.updateCustomer_overwrites server NewRecorder
           (pastGate "PUT" 1 (Some (customerObject Peter'))) env0
           (Strconv.Itoa 1) [] Peter updatePeter).
  - vm_compute. reflexivity.
  - vm_compute. reflexivity.
  - vm_compute. reflexivity.
Defined.

Lemma deleteCustomer_outcome_witness :
  exists w',
    deleteCustomer server NewRecorder (pastGate "DELETE" 1 None) env0
    = Returned (w', {| store := [Alice];
                       calls := (calls env0
                                 ++ [CallDeleteCustomer
                                       (orZero (Strconv.Atoi (Strconv.Itoa 1)))])%list |}) /\
    status (finish w') = StatusOK /\
    body w' = body (V := Doc) NewRecorder.
Proof.
  apply (StoreExtras.deleteCustomer_outcome server NewRecorder
           (pastGate "DELETE" 1 None) env0 (Strconv.Itoa 1) [] None [Alice]).
  - reflexivity.
  - vm_compute. reflexivity.
  - vm_compute. reflexivity.
Defined.

Lemma only_create_runs_unauthenticated_witness :
  CustomerRoutes.CustomerHandler forbidden forbidden forbidden forbidden
    routesServer now0 NewRecorder noToken ()
  = if (String.eqb (Method noToken) "GET" || String.eqb (Method noToken) "DELETE"
        || String.eqb (Method noToken) "PUT")%bool
    then Returned (Auth.unauthorized (HandlersText ErrMissingToken) NewRecorder, ())
    else Returned (NewRecorder, ()).
Proof.
  apply (MiscExtras.only_create_runs_unauthenticated
           forbidden forbidden forbidden forbidden
           routesServer now0 NewRecorder noToken () (HandlersText ErrMissingToken)).
  - vm_compute. discriminate.
  - vm_compute. discriminate.
  - vm_compute. reflexivity.
Defined.

Lemma generateJWT_expiry_at_issue_witness :
  Main.verifyJWT now0 (orEmpty (Main.generateJWT key now0 7)) key
  = inl Jwt.ErrTokenExpired /\
  exists token,
    Main.verifyJWT now0 (orEmpty (Main.generateJWT key (now0 + Jwt.Second) 7)) key
    = inr token /\
    Jwt.sub (Jwt.Claims token) = Jwt.ClaimString (Strconv.FormatInt 7) /\
    Auth.getIDFromToken token = inr 7.
Proof.
  apply (MiscExtras.generateJWT_expiry_at_issue key 7 now0 now0).
  - unfold Strconv.is_int, Strconv.MinInt, Strconv.MaxInt. lia.
  - vm_compute. reflexivity.
  - vm_compute. reflexivity.
  - lia.
Defined.

Lemma login_after_expiry_issues_dead_token_witness :
  exists (w' : ResponseWriter Doc) (env' : Env (list Customer)) (t : string),
    LoginHandler staleServer NewRecorder (postLogin Peter) env0 = Returned (w', env') /\
    header w' !! "Token"
    = Some (default [] (header (V := Doc) NewRecorder !! "Token") ++ [t])%list /\
    (Headers (withToken "GET" staleToken None) !! "Token" = Some [t] ->
     GateSpec.decide_request (secretKey staleServer) now0
       (withToken "GET" staleToken None)
     = GateSpec.InvalidToken Jwt.ErrTokenExpired).
Proof.
  apply (ServerExtras.login_after_expiry_issues_dead_token staleServer NewRecorder
           (postLogin Peter) env0 loginPeter Peter now0
           (withToken "GET" staleToken None)).
  - vm_compute. reflexivity.
  - vm_compute. reflexivity.
  - reflexivity.
  - vm_compute. discriminate.
Defined.

End ExtraExamples.
